(** * Webhook forwarding (pkg/whatsapp/webhook.go)

    A shallow embedding of the webhook forwarder: the three payload
    builders, the event switch of [forwardToWebhook], the fan-out loop over
    the configured endpoints and the retry loop of [submitWebhook].

    Go maps [map[string]interface{}] are stdpp finite maps over strings, Go
    [(value, error)] returns are the sum [result], and everything the code
    does to the outside world (logging, reading the clock, extracting media,
    HTTP calls, sleeping) is an [Effect] appended to a history.  What the
    outside world answers is given by the collaborators of [Env], which see
    the whole history so far. *)

From Stdlib Require Import ZArith List String Ascii DecimalString Lia.
From stdpp Require Import base gmap strings list fin_maps sorting.

(** ** Go base types *)

(** [int64] arithmetic wraps around; [time.Duration] is an [int64] count of
    nanoseconds. *)
Definition wrap64 (z : Z) : Z := ((z + 2 ^ 63) `mod` 2 ^ 64 - 2 ^ 63)%Z.

Definition Duration_mul (a b : Z) : Z := wrap64 (a * b).

Definition Second : Z := 1000000000%Z.

(** [%d] of an [int]. *)
Definition fmt_d (z : Z) : string := NilZero.string_of_int (Z.to_int z).

(** [s != ""] *)
Definition nonempty (s : string) : bool := negb (String.eqb s "").

(** [%v] of a [[]string]. *)
Definition fmt_v_strings (l : list string) : string :=
  "[" +:+ String.concat " " l +:+ "]".

(** The two kinds of [error] values the file creates or receives:
    [fmt.Errorf] and library errors carry only a message;
    [pkgError.WebhookError] is a string type of the repository's error
    package, and the code converts a message to it. *)
Inductive error : Type :=
| errorString (msg : string)
| WebhookError (msg : string).

(** [err.Error()] *)
Definition Error (e : error) : string :=
  match e with
  | errorString msg => msg
  | WebhookError msg => msg
  end.

(** [%v] of an [error] variable, which may be [nil]. *)
Definition fmt_v_error (err : option error) : string :=
  match err with
  | None => "<nil>"
  | Some e => Error e
  end.

(** A Go [(value, error)] return. *)
Inductive result (A : Type) : Type :=
| Ok (a : A)
| Err (e : error).
Arguments Ok {A} a.
Arguments Err {A} e.

(** [time.Time]: nanoseconds since the zero instant (January 1, year 1,
    00:00:00 UTC) and the zone offset in seconds east of UTC. *)
Record Time : Type := mkTime { ns : Z; zone : Z }.

(** [t.IsZero()] *)
Definition IsZero (t : Time) : bool := (ns t =? 0)%Z.

Definition RFC3339 : string := "2006-01-02T15:04:05Z07:00".

(** ** Protocol events (whatsmeow) *)

Record JID : Type := mkJID {
  User : string;
  RawAgent : Z;
  Device : Z;
  Integrator : Z;
  Server : string
}.

Record MessageSource : Type := mkMessageSource {
  Chat : JID;
  Sender : JID;
  IsFromMe : bool;
  IsGroup : bool
}.

Record MessageInfo : Type := mkMessageInfo {
  Source : MessageSource;
  ID : string;
  PushName : string;
  Timestamp : Time
}.

(** A protobuf sub-message is carried opaquely by the code; it is
    represented by its encoded bytes. *)
Definition Proto : Type := string.

(** [waE2E.Message]: the sub-messages the file reads through the
    [Get...Message] getters ([None] is a nil pointer), and the text of a
    plain conversation. *)
Record waE2E_Message : Type := mkE2E {
  Conversation : string;
  GetAudioMessage : option Proto;
  GetContactMessage : option Proto;
  GetDocumentMessage : option Proto;
  GetImageMessage : option Proto;
  GetListMessage : option Proto;
  GetLiveLocationMessage : option Proto;
  GetLocationMessage : option Proto;
  GetOrderMessage : option Proto;
  GetStickerMessage : option Proto;
  GetVideoMessage : option Proto
}.

Record events_Message : Type := mkEvtMessage {
  Info : MessageInfo;
  Message : waE2E_Message;
  IsViewOnce : bool
}.

Record events_Receipt : Type := mkEvtReceipt {
  ReceiptSource : MessageSource;
  MessageIDs : list string;
  ReceiptTimestamp : Time;
  ReceiptType : string
}.

Record events_Presence : Type := mkEvtPresence {
  From : JID;
  Unavailable : bool;
  LastSeen : Time
}.

(** The dynamic type of the [evt any] argument of [forwardToWebhook]: the
    three pointer types of the type switch, or any other type, which is
    carried by the name [%T] prints for it.  The pointers the protocol
    client hands over are not nil. *)
Inductive Event : Type :=
| EvMessage (e : events_Message)
| EvReceipt (e : events_Receipt)
| EvPresence (e : events_Presence)
| EvOther (type_name : string).

(** The media descriptors handed to [ExtractMedia], by their dynamic type. *)
Inductive DownloadableMessage : Type :=
| AudioMessage (m : Proto)
| DocumentMessage (m : Proto)
| ImageMessage (m : Proto)
| StickerMessage (m : Proto)
| VideoMessage (m : Proto).

(** Modelled from the spec: the struct declarations [evtMessage] and
    [evtReaction] are not among the sources.  Section 4.2 describes the
    first as the structured text or caption of the event and the second as
    the target message with the emoji; the code reads [Text] and [Message]. *)
Record evtMessage : Type := mkMsg {
  MsgID : string;
  Text : string;
  RepliedId : string;
  QuotedMessage : string
}.

Record evtReaction : Type := mkReaction {
  ReactionID : string;
  ReactionMessage : string
}.

(** ** Payloads *)

(** The dynamic values the builders store in a payload. *)
Inductive Value : Type :=
| VString (s : string)
| VBool (b : bool)
| VMessage (m : evtMessage)
| VReaction (r : evtReaction)
| VProto (m : Proto)
| VMessageIDs (ids : list string)
| VReceiptType (t : string).

(** ** HTTP *)

Record Request : Type := mkRequest {
  Method : string;
  URL : string;
  Header : gmap string (list string);
  Body : string
}.

Record Response : Type := mkResponse { StatusCode : Z }.

Record Client : Type := mkClient { Timeout : Z }.

Definition MethodPost : string := "POST".

(** [req.Header.Set(key, value)], for keys already in canonical form. *)
Definition Header_Set (key value : string) (req : Request) : Request :=
  {| Method := Method req;
     URL := URL req;
     Header := <[key := [value]]> (Header req);
     Body := Body req |}.

(** ** Effects and the world *)

Inductive Level : Type := InfoLevel | WarnLevel | ErrorLevel.

Inductive Effect : Type :=
| EffLog (lvl : Level) (msg : string)
| EffNow (t : Time)
| EffExtract (root : string) (m : DownloadableMessage) (r : result string)
| EffDo (c : Client) (req : Request) (r : result Response)
| EffSleep (d : Z).

(** The world is the history of the effects performed so far, oldest
    first. *)
Definition World : Type := list Effect.

(** A computation reads the history it starts in and returns its value with
    the effects it performed. *)
Definition M (A : Type) : Type := World -> A * list Effect.

Definition ret {A} (a : A) : M A := fun _ => (a, []).

Definition bind {A B} (m : M A) (f : A -> M B) : M B :=
  fun w =>
    let '(a, es) := m w in
    let '(b, es') := f a (w ++ es) in
    (b, es ++ es').

Notation "'let*' x ':=' m 'in' k" := (bind m (fun x => k))
  (at level 10, x name, m at level 100, k at level 200).
Notation "'run' m 'in' k" := (bind m (fun _ => k))
  (at level 10, m at level 100, k at level 200).

(** Sequencing of fallible computations: the first error is returned. *)
Definition bindE {A B} (m : M (result A)) (f : A -> M (result B)) : M (result B) :=
  let* r := m in
  match r with
  | Ok a => f a
  | Err e => ret (Err e)
  end.

Notation "'let?' x ':=' m 'in' k" := (bindE m (fun x => k))
  (at level 10, x name, m at level 100, k at level 200).

(** ** Configuration and collaborators *)

Record Config : Type := mkConfig {
  WhatsappWebhook : list string;
  WhatsappWebhookSecret : string;
  PathMedia : string
}.

(** What the file takes from the rest of the program, from its libraries and
    from the outside world.  The last three fields are the answers of the
    outside world, which may depend on everything that happened before. *)
Class Env : Type := mkEnv {
  config : Config;
  SourceString : MessageSource -> string;
  JID_String : JID -> string;
  time_Format : Time -> string -> string;
  ReceiptTypeDelivered : string;
  buildEventMessage : events_Message -> evtMessage;
  buildEventReaction : events_Message -> evtReaction;
  buildForwarded : events_Message -> bool;
  json_Marshal : gmap string Value -> result string;
  http_NewRequest_check : string -> string -> option error;
  getMessageDigestOrSignature : string -> string -> result string;
  clock : World -> Time;
  storage : World -> string -> DownloadableMessage -> result string;
  network : World -> Client -> Request -> result Response
}.

Section Webhook.

Context {E : Env}.

(** *** Effectful primitives *)

(** [logrus.Info], [logrus.Warnf], [logrus.Errorf]: the formatted line. *)
Definition logrus (lvl : Level) (msg : string) : M unit :=
  fun _ => (tt, [EffLog lvl msg]).

Definition time_Now : M Time :=
  fun w => let t := clock w in (t, [EffNow t]).

Definition time_Sleep (d : Z) : M unit :=
  fun _ => (tt, [EffSleep d]).

Definition ExtractMedia (root : string) (m : DownloadableMessage) : M (result string) :=
  fun w => let r := storage w root m in (r, [EffExtract root m r]).

(** [client.Do(req)].  [submitWebhook] hands the same [*http.Request] to
    every attempt, and the effect records that request: its method, URL and
    headers, and in [Body] the bytes its buffer was created over.  The
    buffer is read by the transport and the code never rewinds it, so [Body]
    is what the first attempt has to send, not what a later attempt of the
    same delivery still sends; how far the transport read the buffer is not
    part of the model, and [network] answers from the whole history. *)
Definition client_Do (c : Client) (req : Request) : M (result Response) :=
  fun w => let r := network w c req in (r, [EffDo c req r]).

(** [http.NewRequest]: the library validates the method and parses the URL;
    the request it returns has no header yet. *)
Definition http_NewRequest (method url body : string) : result Request :=
  match http_NewRequest_check method url with
  | Some err => Err err
  | None => Ok {| Method := method; URL := url; Header := ∅; Body := body |}
  end.

(** *** The payload builders *)

(** One media block of [createPayload]: the five blocks differ in the getter
    and in the word [kind] only. *)
Definition media_block (kind : string) (media : option DownloadableMessage)
    (evt : events_Message) (body : gmap string Value) : M (result (gmap string Value)) :=
  match media with
  | Some m =>
      let* r := ExtractMedia (PathMedia config) m in
      match r with
      | Err err =>
          run logrus ErrorLevel
                ("Failed to download " +:+ kind +:+ " from "
                 +:+ SourceString (Source (Info evt)) +:+ ": " +:+ Error err) in
          ret (Err (WebhookError ("Failed to download " +:+ kind +:+ ": " +:+ Error err)))
      | Ok path => ret (Ok (<[kind := VString path]> body))
      end
  | None => ret (Ok body)
  end.

(** One pass-through block of [createPayload]. *)
Definition proto_block (key : string) (sub : option Proto)
    (body : gmap string Value) : gmap string Value :=
  match sub with
  | Some m => <[key := VProto m]> body
  | None => body
  end.

(** One guarded assignment [if cond { body[key] = v }]. *)
Definition set_if (cond : bool) (key : string) (v : Value)
    (body : gmap string Value) : gmap string Value :=
  if cond then <[key := v]> body else body.

Definition createPayload (evt : events_Message) : M (result (gmap string Value)) :=
  let message := buildEventMessage evt in
  let waReaction := buildEventReaction evt in
  let forwarded := buildForwarded evt in
  let body : gmap string Value := ∅ in
  let body := <["event_type" := VString "message"]> body in
  let body :=
    let from := SourceString (Source (Info evt)) in
    set_if (nonempty from) "from" (VString from) body in
  let body := set_if (nonempty (Text message)) "message" (VMessage message) body in
  let body :=
    let pushname := PushName (Info evt) in
    set_if (nonempty pushname) "pushname" (VString pushname) body in
  let body :=
    set_if (nonempty (ReactionMessage waReaction)) "reaction" (VReaction waReaction) body in
  let body := set_if (IsViewOnce evt) "view_once" (VBool (IsViewOnce evt)) body in
  let body := set_if forwarded "forwarded" (VBool forwarded) body in
  let body :=
    let timestamp := time_Format (Timestamp (Info evt)) RFC3339 in
    set_if (nonempty timestamp) "timestamp" (VString timestamp) body in
  let? body :=
    media_block "audio" (AudioMessage <$> GetAudioMessage (Message evt)) evt body in
  let body := proto_block "contact" (GetContactMessage (Message evt)) body in
  let? body :=
    media_block "document" (DocumentMessage <$> GetDocumentMessage (Message evt)) evt body in
  let? body :=
    media_block "image" (ImageMessage <$> GetImageMessage (Message evt)) evt body in
  let body := proto_block "list" (GetListMessage (Message evt)) body in
  let body := proto_block "live_location" (GetLiveLocationMessage (Message evt)) body in
  let body := proto_block "location" (GetLocationMessage (Message evt)) body in
  let body := proto_block "order" (GetOrderMessage (Message evt)) body in
  let? body :=
    media_block "sticker" (StickerMessage <$> GetStickerMessage (Message evt)) evt body in
  let? body :=
    media_block "video" (VideoMessage <$> GetVideoMessage (Message evt)) evt body in
  ret (Ok body).

Definition createReceiptPayload (evt : events_Receipt) : M (result (gmap string Value)) :=
  let body : gmap string Value := ∅ in
  let body := <["event_type" := VString "receipt"]> body in
  let body := <["from" := VString (SourceString (ReceiptSource evt))]> body in
  let body := <["timestamp" := VString (time_Format (ReceiptTimestamp evt) RFC3339)]> body in
  let body := <["message_ids" := VMessageIDs (MessageIDs evt)]> body in
  let body :=
    if String.eqb (ReceiptType evt) ReceiptTypeDelivered
    then <["receipt_type" := VString "delivered"]> body
    else <["receipt_type" := VReceiptType (ReceiptType evt)]> body in
  ret (Ok body).

Definition createPresencePayload (evt : events_Presence) : M (result (gmap string Value)) :=
  let body : gmap string Value := ∅ in
  let body := <["event_type" := VString "presence"]> body in
  let body := <["from" := VString (JID_String (From evt))]> body in
  let* now := time_Now in
  let body := <["timestamp" := VString (time_Format now RFC3339)]> body in
  let body := <["status" := VString "online"]> body in
  let body :=
    if Unavailable evt then
      let body := <["status" := VString "offline"]> body in
      if negb (IsZero (LastSeen evt))
      then <["last_seen" := VString (time_Format (LastSeen evt) RFC3339)]> body
      else body
    else body in
  ret (Ok body).

(** *** Delivery *)

Definition maxAttempts : Z := 5.

(** The retry loop of [submitWebhook].  [remaining] is the loop variant
    [maxAttempts - attempt]: the loop test [attempt < maxAttempts] holds
    exactly when it is not zero.  [err] is the variable [err] of the
    function, which the loop overwrites at each attempt. *)
Fixpoint attempts (remaining : nat) (client : Client) (req : Request)
    (attempt : Z) (sleepDuration : Z) (err : option error) : M (option error) :=
  match remaining with
  | O =>
      ret (Some (WebhookError
                   ("error when submit webhook after " +:+ fmt_d attempt
                    +:+ " attempts: " +:+ fmt_v_error err)))
  | S remaining' =>
      let* r := client_Do client req in
      match r with
      | Ok _ =>
          run logrus InfoLevel
                ("Successfully submitted webhook on attempt " +:+ fmt_d (attempt + 1)) in
          ret None
      | Err e =>
          run logrus WarnLevel
                ("Attempt " +:+ fmt_d (attempt + 1)
                 +:+ " to submit webhook failed: " +:+ Error e) in
          run time_Sleep sleepDuration in
          attempts remaining' client req (attempt + 1)
                   (Duration_mul sleepDuration 2) (Some e)
      end
  end.

Definition submitWebhook (payload : gmap string Value) (url : string) : M (option error) :=
  let client := {| Timeout := Duration_mul 10 Second |} in
  match json_Marshal payload with
  | Err err => ret (Some (WebhookError ("Failed to marshal body: " +:+ Error err)))
  | Ok postBody =>
      match http_NewRequest MethodPost url postBody with
      | Err err =>
          ret (Some (WebhookError ("error when create http object " +:+ Error err)))
      | Ok req =>
          let secretKey := WhatsappWebhookSecret config in
          match getMessageDigestOrSignature postBody secretKey with
          | Err err =>
              ret (Some (WebhookError ("error when create signature " +:+ Error err)))
          | Ok signature =>
              let req := Header_Set "Content-Type" "application/json" req in
              let req := Header_Set "X-Hub-Signature-256" ("sha256=" +:+ signature) req in
              attempts (Z.to_nat (maxAttempts - 0)) client req 0
                       (Duration_mul 1 Second) None
          end
      end
  end.

(** *** Forwarding *)

(** The [for _, url := range config.WhatsappWebhook] loop of
    [forwardToWebhook]. *)
Fixpoint range_webhooks (payload : gmap string Value) (urls : list string) : M (option error) :=
  match urls with
  | [] => ret None
  | url :: rest =>
      let* err := submitWebhook payload url in
      match err with
      | Some e => ret (Some e)
      | None => range_webhooks payload rest
      end
  end.

(** The type switch of [forwardToWebhook].  Its default case returns the
    error at once, which is also what the check after the switch does with
    the error of a builder, so both are the [Err] of one [result]. *)
Definition switch_event (evt : Event) : M (result (gmap string Value)) :=
  match evt with
  | EvMessage e => createPayload e
  | EvReceipt e => createReceiptPayload e
  | EvPresence e => createPresencePayload e
  | EvOther type_name => ret (Err (errorString ("unsupported event type: " +:+ type_name)))
  end.

Definition forwardToWebhook (evt : Event) : M (option error) :=
  run logrus InfoLevel
        ("Forwarding event to webhook:" +:+ fmt_v_strings (WhatsappWebhook config)) in
  let* r := switch_event evt in
  match r with
  | Err err => ret (Some err)
  | Ok payload =>
      let* err := range_webhooks payload (WhatsappWebhook config) in
      match err with
      | Some e => ret (Some e)
      | None =>
          run logrus InfoLevel "Event forwarded to webhook" in
          ret None
      end
  end.

End Webhook.

(** ** Observations on a list of effects *)

(** The durations slept, in order. *)
Fixpoint sleeps (es : list Effect) : list Z :=
  match es with
  | [] => []
  | EffSleep d :: es' => d :: sleeps es'
  | _ :: es' => sleeps es'
  end.

(** The HTTP requests sent, in order, each with what the transport
    answered. *)
Fixpoint http_calls (es : list Effect) : list (Request * result Response) :=
  match es with
  | [] => []
  | EffDo _ req r :: es' => (req, r) :: http_calls es'
  | _ :: es' => http_calls es'
  end.

(** The media extractions asked for, in order. *)
Fixpoint extractions (es : list Effect) : list (DownloadableMessage * result string) :=
  match es with
  | [] => []
  | EffExtract _ m r :: es' => (m, r) :: extractions es'
  | _ :: es' => extractions es'
  end.

Definition is_Err {A} (r : result A) : bool :=
  match r with
  | Err _ => true
  | Ok _ => false
  end.

(** The word the code uses for the kind of a media descriptor. *)
Definition media_kind (m : DownloadableMessage) : string :=
  match m with
  | AudioMessage _ => "audio"
  | DocumentMessage _ => "document"
  | ImageMessage _ => "image"
  | StickerMessage _ => "sticker"
  | VideoMessage _ => "video"
  end.

(** The media descriptor is an attachment of the event. *)
Definition attached (evt : events_Message) (m : DownloadableMessage) : Prop :=
  match m with
  | AudioMessage a => GetAudioMessage (Message evt) = Some a
  | DocumentMessage a => GetDocumentMessage (Message evt) = Some a
  | ImageMessage a => GetImageMessage (Message evt) = Some a
  | StickerMessage a => GetStickerMessage (Message evt) = Some a
  | VideoMessage a => GetVideoMessage (Message evt) = Some a
  end.

(** The event carries none of the five media attachments. *)
Definition no_media (evt : events_Message) : Prop :=
  GetAudioMessage (Message evt) = None /\
  GetDocumentMessage (Message evt) = None /\
  GetImageMessage (Message evt) = None /\
  GetStickerMessage (Message evt) = None /\
  GetVideoMessage (Message evt) = None.

(** The event carries none of the five structured sub-messages that are
    passed through. *)
Definition no_structured (evt : events_Message) : Prop :=
  GetContactMessage (Message evt) = None /\
  GetListMessage (Message evt) = None /\
  GetLiveLocationMessage (Message evt) = None /\
  GetLocationMessage (Message evt) = None /\
  GetOrderMessage (Message evt) = None.

(** The client [submitWebhook] creates: a timeout of ten seconds. *)
Definition webhook_client : Client := {| Timeout := 10 * Second |}.

(** The request section 4.6 describes: a POST to the endpoint, the
    serialized payload as body, the content type and the signature header. *)
Definition webhook_request (url postBody signature : string) : Request :=
  {| Method := "POST";
     URL := url;
     Header :=
       <["X-Hub-Signature-256" := ["sha256=" +:+ signature]]>
         (<["Content-Type" := ["application/json"]]> ∅);
     Body := postBody |}.

(** What the [k]-th attempt leaves behind when the transport fails with
    [e]: the call, the warning, and a wait of [d]. *)
Definition failed_attempt (k : Z) (req : Request) (e : error) (d : Z) : list Effect :=
  [EffDo webhook_client req (Err e);
   EffLog WarnLevel
     ("Attempt " +:+ fmt_d k +:+ " to submit webhook failed: " +:+ Error e);
   EffSleep d].

(** What the [k]-th attempt leaves behind when the transport answers. *)
Definition successful_attempt (k : Z) (req : Request) (resp : Response) : list Effect :=
  [EffDo webhook_client req (Ok resp);
   EffLog InfoLevel ("Successfully submitted webhook on attempt " +:+ fmt_d k)].

(** The line [createPayload] logs when the extraction of [m] fails. *)
Definition download_failure_log {E : Env} (evt : events_Message)
    (m : DownloadableMessage) (cause : error) : Effect :=
  EffLog ErrorLevel
    ("Failed to download " +:+ media_kind m +:+ " from "
     +:+ SourceString (Source (Info evt)) +:+ ": " +:+ Error cause).

(** The error [createPayload] returns when the extraction of [m] fails. *)
Definition download_failure (m : DownloadableMessage) (cause : error) : error :=
  WebhookError ("Failed to download " +:+ media_kind m +:+ ": " +:+ Error cause).

(** What a run of the media blocks of [createPayload] guarantees: a failed
    extraction is of an attachment of the event, ends the run and is
    reported; and an error is returned only after a failed extraction. *)
Definition media_outcome {E : Env} (evt : events_Message)
    (res : result (gmap string Value) * list Effect) : Prop :=
  (forall root m cause,
      In (EffExtract root m (Err cause)) res.2 ->
      attached evt m /\
      root = PathMedia config /\
      res.1 = Err (download_failure m cause) /\
      exists es0,
        res.2 = es0 ++ [EffExtract root m (Err cause); download_failure_log evt m cause]) /\
  (forall e, res.1 = Err e ->
             exists root m cause, In (EffExtract root m (Err cause)) res.2).

(** The effects are none of the delivery engine: no HTTP call, no wait. *)
Definition no_delivery (es : list Effect) : Prop :=
  http_calls es = [] /\ sleeps es = [].

(** The outside world answers a second build of the payload of [evt], in
    [w2], as it answered the first, in [w1]: for a message, the media
    extraction returned at the second build what it returned at the first,
    medium for medium; for a presence, the clock reads, to the second, the
    same time. *)
Definition same_answers {E : Env} (evt : Event) (w1 w2 : World) : Prop :=
  match evt with
  | EvMessage _ =>
      extractions (switch_event evt w1).2 = extractions (switch_event evt w2).2
  | EvPresence _ => time_Format (clock w1) RFC3339 = time_Format (clock w2) RFC3339
  | EvReceipt _ => True
  | EvOther _ => True
  end.

(** The value a builder stored under [key], if it returned a payload with
    that key. *)
Definition field (key : string) (r : result (gmap string Value)) : option Value :=
  match r with
  | Ok body => body !! key
  | Err _ => None
  end.

(** The serialized form of what a builder returned. *)
Definition serialized {E : Env} (r : result (gmap string Value)) : result string :=
  match r with
  | Ok payload => json_Marshal payload
  | Err e => Err e
  end.

(** ** Further observations *)




(** The waits of the retry loop, in order. *)
Definition backoff : list Z :=
  [1 * Second; 2 * Second; 4 * Second; 8 * Second; 16 * Second]%Z.

(** The waits that start at [d] and double [n] times. *)
Fixpoint doubling (d : Z) (n : nat) : list Z :=
  match n with
  | O => []
  | S n' => d :: doubling (Duration_mul d 2) n'
  end.

(** The HTTP calls on which the transport returned an error. *)
Definition failed_calls (es : list Effect) : list (Request * result Response) :=
  List.filter (fun call : Request * result Response => is_Err call.2) (http_calls es).

(** The HTTP calls on which the transport returned a response. *)
Definition answered_calls (es : list Effect) : list (Request * result Response) :=
  List.filter (fun call : Request * result Response => negb (is_Err call.2))
    (http_calls es).

(** The time slept, in nanoseconds. *)
Definition total_wait (es : list Effect) : Z := fold_right Z.add 0%Z (sleeps es).

(** The media attachments of a message, in the order [createPayload] looks
    at them. *)
Definition attachments (evt : events_Message) : list DownloadableMessage :=
  option_list (AudioMessage <$> GetAudioMessage (Message evt))
  ++ option_list (DocumentMessage <$> GetDocumentMessage (Message evt))
  ++ option_list (ImageMessage <$> GetImageMessage (Message evt))
  ++ option_list (StickerMessage <$> GetStickerMessage (Message evt))
  ++ option_list (VideoMessage <$> GetVideoMessage (Message evt)).

(** What a media block that succeeds does to the payload: it stores the
    path, if a medium was extracted. *)
Definition media_set (kind : string) (path : option string)
    (body : gmap string Value) : gmap string Value :=
  match path with
  | Some p => <[kind := VString p]> body
  | None => body
  end.

(** What a media block that succeeds leaves behind. *)
Definition media_effect {E : Env} (media : option DownloadableMessage)
    (path : option string) : list Effect :=
  match media, path with
  | Some m, Some p => [EffExtract (PathMedia config) m (Ok p)]
  | _, _ => []
  end.

(** The payload can be sent to [url]: it is serialized, the request is
    built and the body is signed. *)
Definition prepared {E : Env} (payload : gmap string Value) (url : string) : Prop :=
  exists postBody signature,
    json_Marshal payload = Ok postBody /\
    http_NewRequest_check MethodPost url = None /\
    getMessageDigestOrSignature postBody (WhatsappWebhookSecret config) = Ok signature.

(** The last line [forwardToWebhook] logs when it succeeds. *)
Definition forwarded_log : Effect := EffLog InfoLevel "Event forwarded to webhook".

(** The effects a payload builder may perform: it extracts media, reads the
    clock and logs errors. *)
Definition builder_effect (e : Effect) : Prop :=
  match e with
  | EffExtract _ _ _ => True
  | EffNow _ => True
  | EffLog ErrorLevel _ => True
  | _ => False
  end.

(** The effects of the delivery engine: HTTP calls, waits, and its two log
    lines. *)
Definition delivery_effect (e : Effect) : Prop :=
  match e with
  | EffDo _ _ _ => True
  | EffSleep _ => True
  | EffLog InfoLevel msg => String.prefix "Successfully submitted" msg = true
  | EffLog WarnLevel _ => True
  | _ => False
  end.

(** The payload of a message after the guarded assignments that precede
    the media blocks (lines 54 to 77). *)
Definition message_header {E : Env} (evt : events_Message) : gmap string Value :=
  set_if (nonempty (time_Format (Timestamp (Info evt)) RFC3339)) "timestamp"
    (VString (time_Format (Timestamp (Info evt)) RFC3339))
    (set_if (buildForwarded evt) "forwarded" (VBool (buildForwarded evt))
       (set_if (IsViewOnce evt) "view_once" (VBool (IsViewOnce evt))
          (set_if (nonempty (ReactionMessage (buildEventReaction evt))) "reaction"
             (VReaction (buildEventReaction evt))
             (set_if (nonempty (PushName (Info evt))) "pushname"
                (VString (PushName (Info evt)))
                (set_if (nonempty (Text (buildEventMessage evt))) "message"
                   (VMessage (buildEventMessage evt))
                   (set_if (nonempty (SourceString (Source (Info evt)))) "from"
                      (VString (SourceString (Source (Info evt))))
                      (<["event_type" := VString "message"]> ∅))))))).

(** The media extracted in a run are the first so many of [l], and all of
    [l] when the run returns a payload. *)
Definition in_order (res : result (gmap string Value) * list Effect)
    (l : list DownloadableMessage) : Prop :=
  map fst (extractions res.2) `prefix_of` l /\
  (forall payload, res.1 = Ok payload -> map fst (extractions res.2) = l).

(** The extractions recorded in [es], performed from the history [w] on,
    are for the configured media path and record what the storage answered
    at that point. *)
Fixpoint recorded_answers {E : Env} (w : World) (es : list Effect) : Prop :=
  match es with
  | [] => True
  | e :: es' =>
      match e with
      | EffExtract root m res => root = PathMedia config /\ res = storage w root m
      | _ => True
      end /\
      recorded_answers (w ++ [e]) es'
  end.

(** Every extraction but the last succeeded: none follows a failed one. *)
Definition failure_is_last (xs : list (DownloadableMessage * result string)) : Prop :=
  Forall (fun x : DownloadableMessage * result string => is_Err x.2 = false)
         (removelast xs).

(** The extractions of a run stop at the first failure, and none failed
    when the run returned a payload. *)
Definition extraction_results (res : result (gmap string Value) * list Effect) : Prop :=
  failure_is_last (extractions res.2) /\
  (forall payload,
      res.1 = Ok payload ->
      Forall (fun x : DownloadableMessage * result string => is_Err x.2 = false)
             (extractions res.2)).

(** The 18 keys [createPayload] may store. *)
Definition message_keys : list string :=
  ["event_type"; "from"; "message"; "pushname"; "reaction"; "view_once";
   "forwarded"; "timestamp"; "audio"; "contact"; "document"; "image"; "list";
   "live_location"; "location"; "order"; "sticker"; "video"].

(** ** The fan-out, in the words of section 4.7 *)

Section FanOut.

Context {E : Env}.

(** [Deliveries payload w outs es]: starting in [w], the delivery engine is
    invoked with [payload] once for each endpoint of [outs], in that order,
    each invocation in the world the previous one left; [outs] pairs each
    endpoint with what its delivery returned and [es] are the effects of
    all of them. *)
Inductive Deliveries (payload : gmap string Value) :
    World -> list (string * option error) -> list Effect -> Prop :=
| Deliveries_nil w : Deliveries payload w [] []
| Deliveries_cons w url r es outs es' :
    submitWebhook payload url w = (r, es) ->
    Deliveries payload (w ++ es) outs es' ->
    Deliveries payload w ((url, r) :: outs) (es ++ es').

(** Either every endpoint of [urls] was delivered to, in list order, and
    the result is success; or the endpoints before some endpoint [url] were
    delivered to, the delivery to [url] failed with [e], no endpoint after
    [url] was attempted, and the result is [e]. *)
Definition stops_at_first_failure (urls : list string)
    (outs : list (string * option error)) (r : option error) : Prop :=
  (r = None /\ outs = map (fun url => (url, None)) urls) \/
  (exists pre url e post,
      urls = pre ++ url :: post /\
      outs = map (fun url => (url, None)) pre ++ [(url, Some e)] /\
      r = Some e).

End FanOut.

(** ** A concrete environment

    Stand-ins for the collaborators, used to run the program on concrete
    events: a formatter of RFC 3339 times, a small JSON printer, a toy
    keyed digest, a clock that ticks one second per effect, a storage that
    refuses the descriptor [broken], and a network whose answer depends on
    the host. *)

Module Demo.

Definition pad2 (z : Z) : string :=
  if (z <? 10)%Z then "0" +:+ fmt_d z else fmt_d z.

Definition pad4 (z : Z) : string :=
  if (z <? 10)%Z then "000" +:+ fmt_d z
  else if (z <? 100)%Z then "00" +:+ fmt_d z
  else if (z <? 1000)%Z then "0" +:+ fmt_d z
  else fmt_d z.

(** Year, month and day of a count of days since January 1, year 1. *)
Definition civil (days : Z) : Z * Z * Z :=
  let z := (days + 306)%Z in
  let era := (z / 146097)%Z in
  let doe := (z - era * 146097)%Z in
  let yoe := ((doe - doe / 1460 + doe / 36524 - doe / 146096) / 365)%Z in
  let doy := (doe - (365 * yoe + yoe / 4 - yoe / 100))%Z in
  let mp := ((5 * doy + 2) / 153)%Z in
  let d := (doy - (153 * mp + 2) / 5 + 1)%Z in
  let m := (if (mp <? 10)%Z then mp + 3 else mp - 9)%Z in
  let y := (yoe + era * 400 + (if (m <=? 2)%Z then 1 else 0))%Z in
  (y, m, d).

Definition zone_suffix (offset : Z) : string :=
  if (offset =? 0)%Z then "Z"
  else
    let a := Z.abs offset in
    (if (offset <? 0)%Z then "-" else "+")
    +:+ pad2 (a / 3600) +:+ ":" +:+ pad2 (a `mod` 3600 / 60).

Definition format_rfc3339 (t : Time) : string :=
  let secs := (ns t / 1000000000 + zone t)%Z in
  let '(y, m, d) := civil (secs / 86400) in
  let rest := (secs `mod` 86400)%Z in
  pad4 y +:+ "-" +:+ pad2 m +:+ "-" +:+ pad2 d +:+ "T"
  +:+ pad2 (rest / 3600) +:+ ":" +:+ pad2 (rest `mod` 3600 / 60) +:+ ":"
  +:+ pad2 (rest `mod` 60) +:+ zone_suffix (zone t).

Definition jid_string (j : JID) : string := User j +:+ "@" +:+ Server j.

Definition source_string (ms : MessageSource) : string :=
  if String.eqb (jid_string (Sender ms)) (jid_string (Chat ms))
  then jid_string (Chat ms)
  else jid_string (Sender ms) +:+ " in " +:+ jid_string (Chat ms).

Definition quote : string := String (ascii_of_nat 34) "".

Definition json_string (s : string) : string := quote +:+ s +:+ quote.

Definition json_field (k v : string) : string := json_string k +:+ ":" +:+ v.

Definition json_object (fields : list string) : string :=
  "{" +:+ String.concat "," fields +:+ "}".

Definition json_value (v : Value) : string :=
  match v with
  | VString s => json_string s
  | VBool b => if b then "true" else "false"
  | VMessage m =>
      json_object [json_field "id" (json_string (MsgID m));
                   json_field "text" (json_string (Text m))]
  | VReaction r =>
      json_object [json_field "id" (json_string (ReactionID r));
                   json_field "message" (json_string (ReactionMessage r))]
  | VProto m => json_string m
  | VMessageIDs ids => "[" +:+ String.concat "," (json_string <$> ids) +:+ "]"
  | VReceiptType t => json_string t
  end.

Definition key_le (a b : string * Value) : Prop := String.leb a.1 b.1 = true.

#[local] Instance key_le_dec a b : Decision (key_le a b).
Proof. unfold key_le. apply _. Defined.

Definition marshal (payload : gmap string Value) : result string :=
  Ok (json_object
        ((fun kv : string * Value => json_field kv.1 (json_value kv.2))
           <$> merge_sort key_le (map_to_list payload))).

Definition check_url (method url : string) : option error :=
  match String.index 0 " " url with
  | Some _ => Some (errorString ("parse " +:+ json_string url +:+ ": invalid character in host name"))
  | None => None
  end.

Fixpoint checksum (s : string) (acc : Z) : Z :=
  match s with
  | EmptyString => acc
  | String c s' => checksum s' ((acc * 31 + Z.of_nat (nat_of_ascii c)) `mod` 4294967296)%Z
  end.

Definition digest (body key : string) : result string :=
  if String.eqb key "" then Err (errorString "empty key")
  else Ok (fmt_d (checksum (key +:+ body) 7)).

Definition start : Time := {| ns := 63839664000000000000; zone := 0 |}.

Definition tick (w : World) : Time :=
  {| ns := (ns start + 1000000000 * Z.of_nat (length w)
            + fold_right Z.add 0 (sleeps w))%Z;
     zone := 0 |}.

Definition descriptor (m : DownloadableMessage) : Proto :=
  match m with
  | AudioMessage a | DocumentMessage a | ImageMessage a
  | StickerMessage a | VideoMessage a => a
  end.

Definition store (w : World) (root : string) (m : DownloadableMessage) : result string :=
  if String.eqb (descriptor m) "broken"
  then Err (errorString "download failed with status 404")
  else Ok (root +:+ "/" +:+ fmt_d (Z.of_nat (length w)) +:+ "-" +:+ media_kind m).

Definition mentions (word s : string) : bool :=
  match String.index 0 word s with
  | Some _ => true
  | None => false
  end.

Definition refused : error := errorString "dial tcp: connection refused".

(** Hosts named [down] never answer, hosts named [flaky] answer from the
    third request on, hosts named [teapot] answer with status 418, every
    other host answers with status 200. *)
Definition net (w : World) (c : Client) (req : Request) : result Response :=
  let earlier :=
    length (filter (fun call : Request * result Response =>
                      String.eqb (URL call.1) (URL req) = true) (http_calls w)) in
  if mentions "down" (URL req) then Err refused
  else if mentions "flaky" (URL req) then
    if (earlier <? 2)%nat then Err refused else Ok {| StatusCode := 200 |}
  else if mentions "teapot" (URL req) then Ok {| StatusCode := 418 |}
  else Ok {| StatusCode := 200 |}.


Definition env (cfg : Config)
    (network : World -> Client -> Request -> result Response) : Env :=
  {| config := cfg;
     SourceString := source_string;
     JID_String := jid_string;
     time_Format := fun t _ => format_rfc3339 t;
     ReceiptTypeDelivered := "";
     buildEventMessage := fun evt =>
       {| MsgID := ID (Info evt); Text := Conversation (Message evt);
          RepliedId := ""; QuotedMessage := "" |};
     buildEventReaction := fun _ => {| ReactionID := ""; ReactionMessage := "" |};
     buildForwarded := fun _ => false;
     json_Marshal := marshal;
     http_NewRequest_check := check_url;
     getMessageDigestOrSignature := digest;
     clock := tick;
     storage := store;
     network := network |}.

Definition endpoints (urls : list string) : Config :=
  {| WhatsappWebhook := urls; WhatsappWebhookSecret := "secret";
     PathMedia := "statics/media" |}.

Definition alice : JID :=
  {| User := "628123"; RawAgent := 0; Device := 0; Integrator := 0;
     Server := "s.whatsapp.net" |}.

Definition from_alice : MessageSource :=
  {| Chat := alice; Sender := alice; IsFromMe := false; IsGroup := false |}.

Definition empty_message : waE2E_Message :=
  {| Conversation := "";
     GetAudioMessage := None; GetContactMessage := None;
     GetDocumentMessage := None; GetImageMessage := None;
     GetListMessage := None; GetLiveLocationMessage := None;
     GetLocationMessage := None; GetOrderMessage := None;
     GetStickerMessage := None; GetVideoMessage := None |}.

Definition info : MessageInfo :=
  {| Source := from_alice; ID := "3EB0C7"; PushName := "Alice"; Timestamp := start |}.

(** A message with no content at all. *)
Definition bare : events_Message :=
  {| Info := info; Message := empty_message; IsViewOnce := false |}.

(** A shared location: no text, no media. *)
Definition location : events_Message :=
  {| Info := info;
     Message :=
       {| Conversation := "";
          GetAudioMessage := None; GetContactMessage := None;
          GetDocumentMessage := None; GetImageMessage := None;
          GetListMessage := None; GetLiveLocationMessage := None;
          GetLocationMessage := Some "geo:-6.2,106.8"; GetOrderMessage := None;
          GetStickerMessage := None; GetVideoMessage := None |};
     IsViewOnce := false |}.

(** A message marked view-once whose content is empty. *)
Definition once : events_Message :=
  {| Info := info; Message := empty_message; IsViewOnce := true |}.

(** A text message. *)
Definition hello : events_Message :=
  {| Info := info;
     Message :=
       {| Conversation := "hello";
          GetAudioMessage := None; GetContactMessage := None;
          GetDocumentMessage := None; GetImageMessage := None;
          GetListMessage := None; GetLiveLocationMessage := None;
          GetLocationMessage := None; GetOrderMessage := None;
          GetStickerMessage := None; GetVideoMessage := None |};
     IsViewOnce := false |}.

(** A voice note whose download fails, with an image that would not. *)
Definition voice : events_Message :=
  {| Info := info;
     Message :=
       {| Conversation := "";
          GetAudioMessage := Some "broken"; GetContactMessage := None;
          GetDocumentMessage := None; GetImageMessage := Some "jpeg";
          GetListMessage := None; GetLiveLocationMessage := None;
          GetLocationMessage := None; GetOrderMessage := None;
          GetStickerMessage := None; GetVideoMessage := None |};
     IsViewOnce := false |}.

Definition seen : events_Receipt :=
  {| ReceiptSource := from_alice; MessageIDs := ["3EB0C7"; "3EB0C8"];
     ReceiptTimestamp := start; ReceiptType := "read" |}.

Definition away : events_Presence :=
  {| From := alice; Unavailable := true; LastSeen := start |}.

(** A photo sent with a contact card. *)
Definition photo : events_Message :=
  {| Info := info;
     Message :=
       {| Conversation := "";
          GetAudioMessage := None; GetContactMessage := Some "BEGIN:VCARD";
          GetDocumentMessage := None; GetImageMessage := Some "jpeg";
          GetListMessage := None; GetLiveLocationMessage := None;
          GetLocationMessage := None; GetOrderMessage := None;
          GetStickerMessage := None; GetVideoMessage := None |};
     IsViewOnce := false |}.

Definition hook (host : string) : string := "https://" +:+ host +:+ ".example/hook".

(** Two endpoints on the network described above. *)
Definition online : Env := env (endpoints [hook "ok"; hook "down"]) net.


(** No endpoint configured. *)
Definition silent : Env := env (endpoints []) net.

(** The smallest payload of a message. *)
Definition tagged : gmap string Value := <["event_type" := VString "message"]> ∅.

End Demo.

(** * Properties *)

Section Properties.

Context {E : Env}.

(** ** Sequencing *)

Lemma bindE_run {A B} (m : M (result A)) (f : A -> M (result B)) w :
  bindE m f w =
  match m w with
  | (Ok a, es1) => let '(r, es2) := f a (w ++ es1) in (r, es1 ++ es2)
  | (Err e, es1) => (Err e, es1)
  end.
Proof.
  unfold bindE, bind. destruct (m w) as [[a | e] es1].
  - reflexivity.
  - unfold ret. rewrite app_nil_r. reflexivity.
Qed.

Lemma http_calls_app es1 es2 : http_calls (es1 ++ es2) = http_calls es1 ++ http_calls es2.
Proof.
  induction es1 as [| [] es1 IH]; cbn [app http_calls]; rewrite ?IH; reflexivity.
Qed.

Lemma sleeps_app es1 es2 : sleeps (es1 ++ es2) = sleeps es1 ++ sleeps es2.
Proof.
  induction es1 as [| [] es1 IH]; cbn [app sleeps]; rewrite ?IH; reflexivity.
Qed.

Lemma no_delivery_app es1 es2 :
  no_delivery es1 -> no_delivery es2 -> no_delivery (es1 ++ es2).
Proof.
  intros [Hc1 Hs1] [Hc2 Hs2]. unfold no_delivery.
  rewrite http_calls_app, sleeps_app, Hc1, Hs1, Hc2, Hs2. split; reflexivity.
Qed.

(** ** The media blocks *)

Lemma media_block_run kind media evt body w :
  media_block kind media evt body w =
  match media with
  | None => (Ok body, [])
  | Some m =>
      match storage w (PathMedia config) m with
      | Ok path =>
          (Ok (<[kind := VString path]> body),
           [EffExtract (PathMedia config) m (Ok path)])
      | Err err =>
          (Err (WebhookError ("Failed to download " +:+ kind +:+ ": " +:+ Error err)),
           [EffExtract (PathMedia config) m (Err err);
            EffLog ErrorLevel
              ("Failed to download " +:+ kind +:+ " from "
               +:+ SourceString (Source (Info evt)) +:+ ": " +:+ Error err)])
      end
  end.
Proof.
  unfold media_block. destruct media as [m |]; [| reflexivity].
  unfold bind, ExtractMedia.
  destruct (storage w (PathMedia config) m) as [path | err]; reflexivity.
Qed.

Lemma media_block_outcome kind media evt body w :
  (forall m, media = Some m -> attached evt m /\ media_kind m = kind) ->
  media_outcome evt (media_block kind media evt body w).
Proof.
  intros Hmedia. rewrite media_block_run.
  destruct media as [m |].
  - destruct (Hmedia m eq_refl) as [Hatt <-].
    destruct (storage w (PathMedia config) m) as [path | err]; split; cbn [fst snd].
    + intros root m' cause [Heq | []]. discriminate Heq.
    + intros e He. discriminate He.
    + intros root m' cause [Heq | [Heq | []]]; [| discriminate Heq].
      injection Heq as <- <- <-.
      repeat split; [exact Hatt |]. exists []. reflexivity.
    + intros e _. exists (PathMedia config), m, err. left. reflexivity.
  - split; cbn [fst snd].
    + intros root m cause [].
    + intros e He. discriminate He.
Qed.

Lemma bindE_outcome evt (m : M (result (gmap string Value)))
    (f : gmap string Value -> M (result (gmap string Value))) w :
  media_outcome evt (m w) ->
  (forall a w', media_outcome evt (f a w')) ->
  media_outcome evt (bindE m f w).
Proof.
  intros Hm Hf. rewrite bindE_run.
  destruct (m w) as [[a | e] es1]; [| exact Hm].
  specialize (Hf a (w ++ es1)).
  destruct (f a (w ++ es1)) as [r es2].
  destruct Hm as [Hm _], Hf as [Hf1 Hf2]. cbn [fst snd] in *.
  split.
  - intros root m' cause Hin. apply in_app_or in Hin.
    destruct Hin as [Hin | Hin].
    + destruct (Hm root m' cause Hin) as (_ & _ & Hbad & _). discriminate Hbad.
    + destruct (Hf1 root m' cause Hin) as (Hatt & Hroot & Hr & es0 & Hes).
      repeat split; try assumption.
      exists (es1 ++ es0). rewrite Hes, app_assoc. reflexivity.
  - intros e He. destruct (Hf2 e He) as (root & m' & cause & Hin).
    exists root, m', cause. apply in_or_app. right. exact Hin.
Qed.

Lemma ret_outcome evt body w : media_outcome evt (ret (Ok body) w).
Proof.
  split; cbn [fst snd ret].
  - intros root m cause [].
  - intros e He. discriminate He.
Qed.

Lemma createPayload_outcome evt w : media_outcome evt (createPayload evt w).
Proof.
  unfold createPayload. cbv zeta.
  repeat (apply bindE_outcome;
          [apply media_block_outcome; intros m Hm;
           match type of Hm with
           | _ <$> ?getter = _ => destruct getter eqn:Hget; [| discriminate Hm]
           end;
           injection Hm as <-; split; [exact Hget | reflexivity]
          | intros ? ?]).
  apply ret_outcome.
Qed.

(** The builders deliver nothing. *)
Lemma bindE_no_delivery {A B} (m : M (result A)) (f : A -> M (result B)) w :
  no_delivery (m w).2 ->
  (forall a w', no_delivery (f a w').2) ->
  no_delivery (bindE m f w).2.
Proof.
  intros Hm Hf. rewrite bindE_run.
  destruct (m w) as [[a | e] es1]; [| exact Hm].
  specialize (Hf a (w ++ es1)). destruct (f a (w ++ es1)) as [r es2].
  apply no_delivery_app; assumption.
Qed.

Lemma media_block_no_delivery kind media evt body w :
  no_delivery (media_block kind media evt body w).2.
Proof.
  rewrite media_block_run. destruct media as [m |]; [| split; reflexivity].
  destruct (storage w (PathMedia config) m); split; reflexivity.
Qed.

Lemma switch_event_no_delivery evt w : no_delivery (switch_event evt w).2.
Proof.
  destruct evt as [e | e | e | type_name]; cbn [switch_event];
    try (split; reflexivity).
  unfold createPayload. cbv zeta.
  repeat (apply bindE_no_delivery; [apply media_block_no_delivery | intros ? ?]).
  split; reflexivity.
Qed.

(** ** The fields of a payload *)

Lemma bindE_skip {A B} (m : M (result A)) (f : A -> M (result B)) w a :
  m w = (Ok a, []) -> bindE m f w = f a w.
Proof.
  intros Hm. rewrite bindE_run, Hm, app_nil_r.
  destruct (f a w) as [r es]. reflexivity.
Qed.

Lemma set_if_lookup cond key v (body : gmap string Value) k :
  set_if cond key v body !! k =
  if cond && bool_decide (key = k) then Some v else body !! k.
Proof.
  unfold set_if. destruct cond; cbn [andb]; [| reflexivity].
  rewrite lookup_insert. case_bool_decide as Hk.
  - rewrite decide_True by exact Hk. reflexivity.
  - rewrite decide_False by exact Hk. reflexivity.
Qed.

Lemma proto_block_lookup_ne key sub (body : gmap string Value) k :
  key <> k -> proto_block key sub body !! k = body !! k.
Proof.
  intros Hk. destruct sub as [m |]; cbn [proto_block]; [| reflexivity].
  apply lookup_insert_ne. exact Hk.
Qed.

Lemma nonempty_true s : nonempty s = true -> s <> "".
Proof.
  unfold nonempty. intros Hs ->. discriminate Hs.
Qed.

(** A media block that succeeds leaves every other key as it was. *)
Lemma media_block_lookup_ne kind media evt body w body' es k :
  media_block kind media evt body w = (Ok body', es) ->
  kind <> k -> body' !! k = body !! k.
Proof.
  rewrite media_block_run. intros Hrun Hk.
  destruct media as [m |].
  - destruct (storage w (PathMedia config) m) as [path | err];
      [| discriminate Hrun].
    injection Hrun as <- _. apply lookup_insert_ne. exact Hk.
  - injection Hrun as <- _. reflexivity.
Qed.

Lemma bindE_ok {A B} (m : M (result A)) (f : A -> M (result B)) w b es :
  bindE m f w = (Ok b, es) ->
  exists a es1 es2,
    m w = (Ok a, es1) /\ f a (w ++ es1) = (Ok b, es2) /\ es = es1 ++ es2.
Proof.
  rewrite bindE_run. destruct (m w) as [[a | e] es1]; [| discriminate].
  destruct (f a (w ++ es1)) as [r es2] eqn:Hf. intros Hrun.
  injection Hrun as -> <-. exists a, es1, es2. repeat split; assumption.
Qed.

(** Every payload [createPayload] returns is tagged as a message. *)
Lemma createPayload_event_type evt w payload es :
  createPayload evt w = (Ok payload, es) ->
  payload !! "event_type" = Some (VString "message").
Proof.
  unfold createPayload. cbv zeta. intros Hrun.
  apply bindE_ok in Hrun. destruct Hrun as (b1 & ? & ? & H1 & Hrun & _).
  apply bindE_ok in Hrun. destruct Hrun as (b2 & ? & ? & H2 & Hrun & _).
  apply bindE_ok in Hrun. destruct Hrun as (b3 & ? & ? & H3 & Hrun & _).
  apply bindE_ok in Hrun. destruct Hrun as (b4 & ? & ? & H4 & Hrun & _).
  apply bindE_ok in Hrun. destruct Hrun as (b5 & ? & ? & H5 & Hrun & _).
  injection Hrun as <- _.
  rewrite (media_block_lookup_ne _ _ _ _ _ _ _ _ H5) by discriminate.
  rewrite (media_block_lookup_ne _ _ _ _ _ _ _ _ H4) by discriminate.
  rewrite !proto_block_lookup_ne by discriminate.
  rewrite (media_block_lookup_ne _ _ _ _ _ _ _ _ H3) by discriminate.
  rewrite (media_block_lookup_ne _ _ _ _ _ _ _ _ H2) by discriminate.
  rewrite !proto_block_lookup_ne by discriminate.
  rewrite (media_block_lookup_ne _ _ _ _ _ _ _ _ H1) by discriminate.
  rewrite !set_if_lookup.
  repeat (rewrite (bool_decide_eq_false_2 (_ = "event_type")) by discriminate;
          rewrite andb_false_r).
  apply lookup_insert_eq.
Qed.

(** C5 (amended): for a message event with no media attachment, none of the
    structured sub-messages (contact, list, live location, location, order),
    not marked view-once, with no reaction, not forwarded and with an empty
    text, [createPayload] extracts nothing and returns a payload that has
    the key [event_type] and, each exactly when its source text is not
    empty, the keys [from], [pushname] and [timestamp]; it has no other key
    and no key with an empty text. *)
Theorem createPayload_bare evt w
    (Hmedia : no_media evt)
    (Hstructured : no_structured evt)
    (Hview : IsViewOnce evt = false)
    (Hreaction : ReactionMessage (buildEventReaction evt) = "")
    (Hforwarded : buildForwarded evt = false)
    (Htext : Text (buildEventMessage evt) = "") :
  let from := SourceString (Source (Info evt)) in
  let pushname := PushName (Info evt) in
  let timestamp := time_Format (Timestamp (Info evt)) RFC3339 in
  exists payload,
    createPayload evt w = (Ok payload, []) /\
    payload !! "event_type" = Some (VString "message") /\
    payload !! "from" = (if nonempty from then Some (VString from) else None) /\
    payload !! "pushname"
    = (if nonempty pushname then Some (VString pushname) else None) /\
    payload !! "timestamp"
    = (if nonempty timestamp then Some (VString timestamp) else None) /\
    (forall key,
        ~ In key ["event_type"; "from"; "pushname"; "timestamp"] ->
        payload !! key = None) /\
    (forall key, payload !! key <> Some (VString "")).
Proof.
  intros from pushname timestamp.
  destruct Hmedia as (Ha & Hd & Hi & Hs & Hv).
  destruct Hstructured as (Hc & Hl & Hll & Hlo & Ho).
  eexists. split.
  - unfold createPayload. cbv zeta.
    rewrite Ha, Hd, Hi, Hs, Hv, Hc, Hl, Hll, Hlo, Ho, Hview, Hreaction, Hforwarded, Htext.
    cbn [fmap option_fmap option_map proto_block].
    rewrite !(bindE_skip _ _ _ _ (media_block_run _ None _ _ _)).
    reflexivity.
  - fold from pushname timestamp.
    assert (Hget : forall k,
               set_if (nonempty timestamp) "timestamp" (VString timestamp)
                 (set_if false "forwarded" (VBool false)
                    (set_if false "view_once" (VBool false)
                       (set_if (nonempty "") "reaction"
                          (VReaction (buildEventReaction evt))
                          (set_if (nonempty pushname) "pushname" (VString pushname)
                             (set_if (nonempty "") "message"
                                (VMessage (buildEventMessage evt))
                                (set_if (nonempty from) "from" (VString from)
                                   (<["event_type" := VString "message"]> ∅)))))))
               !! k
               = if nonempty timestamp && bool_decide ("timestamp" = k)
                 then Some (VString timestamp)
                 else if nonempty pushname && bool_decide ("pushname" = k)
                 then Some (VString pushname)
                 else if nonempty from && bool_decide ("from" = k)
                 then Some (VString from)
                 else if bool_decide ("event_type" = k)
                 then Some (VString "message")
                 else None).
    { intros k. rewrite !set_if_lookup. cbn [nonempty String.eqb negb andb].
      rewrite lookup_insert, lookup_empty.
      destruct (decide ("event_type" = k)) as [Hk | Hk].
      - rewrite (bool_decide_eq_true_2 _ Hk). reflexivity.
      - rewrite (bool_decide_eq_false_2 _ Hk). reflexivity. }
    repeat split;
      try (rewrite Hget; cbn; rewrite ?andb_false_r, ?andb_true_r;
           destruct (nonempty timestamp), (nonempty pushname), (nonempty from);
           reflexivity).
    + intros key Hkey. rewrite Hget.
      rewrite !bool_decide_eq_false_2, !andb_false_r; [reflexivity | | | |];
        intros <-; apply Hkey; cbn; tauto.
    + intros key. rewrite Hget.
      destruct (nonempty timestamp) eqn:Hts, (nonempty pushname) eqn:Hpn,
        (nonempty from) eqn:Hfr; cbn [andb];
        repeat case_bool_decide; intros Heq; try discriminate Heq;
        injection Heq as Heq;
        first [ exact (nonempty_true _ Hts Heq)
              | exact (nonempty_true _ Hpn Heq)
              | exact (nonempty_true _ Hfr Heq) ].
Qed.

(** ** Presence *)

Lemma createPresencePayload_run evt w :
  createPresencePayload evt w =
  (Ok (let body : gmap string Value :=
         <["status" := VString "online"]>
           (<["timestamp" := VString (time_Format (clock w) RFC3339)]>
              (<["from" := VString (JID_String (From evt))]>
                 (<["event_type" := VString "presence"]> ∅))) in
       if Unavailable evt then
         set_if (negb (IsZero (LastSeen evt))) "last_seen"
           (VString (time_Format (LastSeen evt) RFC3339))
           (<["status" := VString "offline"]> body)
       else body),
   [EffNow (clock w)]).
Proof. reflexivity. Qed.

(** C7: the payload of a presence event has status [offline] exactly when
    the event marks the subject unavailable and [online] otherwise; it has
    the key [last_seen], holding the formatted last-seen time, exactly when
    the status is [offline] and the last-seen time is not the zero time; with
    status [online] the key is absent. *)
Theorem createPresencePayload_status evt w :
  exists payload,
    createPresencePayload evt w = (Ok payload, [EffNow (clock w)]) /\
    (payload !! "status" = Some (VString "offline") <-> Unavailable evt = true) /\
    (payload !! "status" = Some (VString "online") <-> Unavailable evt = false) /\
    ((exists v, payload !! "last_seen" = Some v) <->
     payload !! "status" = Some (VString "offline")
     /\ IsZero (LastSeen evt) = false) /\
    (payload !! "status" = Some (VString "online") -> payload !! "last_seen" = None) /\
    (forall v, payload !! "last_seen" = Some v ->
               v = VString (time_Format (LastSeen evt) RFC3339)).
Proof.
  eexists. split; [apply createPresencePayload_run |].
  cbv zeta. unfold set_if.
  destruct (Unavailable evt), (IsZero (LastSeen evt)); cbn [negb];
    (repeat split; intros; try discriminate; try reflexivity);
    try (eexists; reflexivity);
    repeat match goal with
           | H : exists _, _ |- _ => destruct H
           | H : _ /\ _ |- _ => destruct H
           end;
    try discriminate; try congruence.
  match goal with
  | H : _ !! "last_seen" = Some _ |- _ =>
      rewrite lookup_insert_eq in H; injection H as <-; reflexivity
  end.
Qed.

(** ** Determinism of the builders *)

(** Two presence payloads of one event are equal exactly when the clock
    read, to the second, the same time at both builds. *)
Lemma createPresencePayload_same evt w1 w2 :
  time_Format (clock w1) RFC3339 = time_Format (clock w2) RFC3339 <->
  fst (createPresencePayload evt w1) = fst (createPresencePayload evt w2).
Proof.
  rewrite !createPresencePayload_run. cbn [fst]. cbv zeta. split.
  - intros ->. reflexivity.
  - intros Heq. injection Heq as Heq.
    apply (f_equal (fun body : gmap string Value => body !! "timestamp")) in Heq.
    unfold set_if in Heq.
    destruct (Unavailable evt), (negb (IsZero (LastSeen evt)));
      rewrite !lookup_insert_ne in Heq by discriminate;
      rewrite !lookup_insert_eq in Heq;
      injection Heq as Heq; exact Heq.
Qed.

(** ** The event switch *)

(** C8: an event of any other type than the three of the switch makes
    [forwardToWebhook] fail at once with the error whose message names the
    type of the event, after nothing but its first log line; a message, a
    receipt and a presence are routed to their builders, whose payloads are
    tagged [message], [receipt] and [presence]. *)
Theorem forwardToWebhook_unsupported :
  (forall type_name w,
      forwardToWebhook (EvOther type_name) w =
      (Some (errorString ("unsupported event type: " +:+ type_name)),
       [EffLog InfoLevel
          ("Forwarding event to webhook:" +:+ fmt_v_strings (WhatsappWebhook config))])) /\
  (forall e, switch_event (EvMessage e) = createPayload e) /\
  (forall e, switch_event (EvReceipt e) = createReceiptPayload e) /\
  (forall e, switch_event (EvPresence e) = createPresencePayload e) /\
  (forall evt w payload es,
      switch_event evt w = (Ok payload, es) ->
      match evt with
      | EvMessage _ => payload !! "event_type" = Some (VString "message")
      | EvReceipt _ => payload !! "event_type" = Some (VString "receipt")
      | EvPresence _ => payload !! "event_type" = Some (VString "presence")
      | EvOther _ => False
      end).
Proof.
  repeat split.
  intros [e | e | e | type_name] w payload es Hrun; cbn [switch_event] in Hrun.
  - exact (createPayload_event_type _ _ _ _ Hrun).
  - unfold createReceiptPayload, ret in Hrun. cbv zeta in Hrun.
    injection Hrun as <- _.
    destruct (String.eqb (ReceiptType e) ReceiptTypeDelivered); reflexivity.
  - rewrite createPresencePayload_run in Hrun. injection Hrun as <- _.
    cbv zeta. unfold set_if.
    destruct (Unavailable e), (negb (IsZero (LastSeen e))); reflexivity.
  - discriminate Hrun.
Qed.

(** ** The retry loop *)

(** One turn of the loop. *)
Lemma attempts_step remaining client req attempt d err w :
  attempts (S remaining) client req attempt d err w =
  match network w client req with
  | Ok resp =>
      (None,
       [EffDo client req (Ok resp);
        EffLog InfoLevel ("Successfully submitted webhook on attempt " +:+ fmt_d (attempt + 1))])
  | Err e =>
      let failed :=
        [EffDo client req (Err e);
         EffLog WarnLevel
           ("Attempt " +:+ fmt_d (attempt + 1) +:+ " to submit webhook failed: " +:+ Error e);
         EffSleep d] in
      let '(r, es) :=
        attempts remaining client req (attempt + 1) (Duration_mul d 2) (Some e)
                 (w ++ failed) in
      (r, failed ++ es)
  end.
Proof.
  cbn [attempts]. unfold bind at 1. unfold client_Do at 1.
  destruct (network w client req) as [resp | e].
  - reflexivity.
  - unfold bind, logrus, time_Sleep. rewrite <- !app_assoc. cbn [app].
    destruct (attempts remaining client req (attempt + 1) (Duration_mul d 2)
                (Some e) _) as [r es].
    reflexivity.
Qed.

(** The loop always calls the transport with the client and the request it
    was given. *)
Lemma attempts_calls remaining client req :
  forall attempt d err w c' req' r',
    In (EffDo c' req' r') (snd (attempts remaining client req attempt d err w)) ->
    c' = client /\ req' = req.
Proof.
  induction remaining as [| n IH]; intros attempt d err w c' req' r' Hin.
  - destruct Hin.
  - rewrite attempts_step in Hin.
    destruct (network w client req) as [resp | e].
    + cbn in Hin. destruct Hin as [Heq | [Heq | []]]; [| discriminate Heq].
      injection Heq as -> -> _. split; reflexivity.
    + cbv zeta in Hin.
      destruct (attempts n client req (attempt + 1) (Duration_mul d 2) (Some e) _)
        as [r es] eqn:Hrest.
      cbn in Hin. destruct Hin as [Heq | [Heq | [Heq | Hin]]];
        [injection Heq as -> -> _; split; reflexivity
        | discriminate Heq | discriminate Heq |].
      eapply IH. erewrite Hrest. exact Hin.
Qed.

(** Once the payload is serialized, the request built and the signature
    computed, [submitWebhook] enters the loop with five attempts left. *)
Lemma submitWebhook_prepared payload url w postBody signature :
  json_Marshal payload = Ok postBody ->
  http_NewRequest_check MethodPost url = None ->
  getMessageDigestOrSignature postBody (WhatsappWebhookSecret config) = Ok signature ->
  submitWebhook payload url w =
  attempts 5 webhook_client (webhook_request url postBody signature) 0 Second None w.
Proof.
  intros Hser Hreq Hsig. unfold submitWebhook, http_NewRequest.
  rewrite Hser, Hreq, Hsig. reflexivity.
Qed.

(** One turn of the loop in [Hrun] when the answer of the transport is the
    one stated by [H]. *)
Ltac known_step Hrun H :=
  rewrite attempts_step in Hrun;
  match type of Hrun with
  | context [network ?w' ?c ?req] =>
      match type of H with
      | _ = ?answer =>
          let Hnet := fresh "Hnet" in
          assert (Hnet : network w' c req = answer) by exact H;
          rewrite Hnet in Hrun; clear Hnet; cbv zeta in Hrun
      end
  end.


(** An answer of the transport ends the loop: whatever was done before it,
    only the log line of the success follows it. *)
Lemma attempts_success remaining client req :
  forall attempt d err w r es es1 c' req' resp es2,
    attempts remaining client req attempt d err w = (r, es) ->
    es = es1 ++ EffDo c' req' (Ok resp) :: es2 ->
    r = None /\
    es2 = [EffLog InfoLevel
             ("Successfully submitted webhook on attempt "
              +:+ fmt_d (attempt + Z.of_nat (length (http_calls es1)) + 1))].
Proof.
  induction remaining as [| n IH];
    intros attempt d err w r es es1 c' req' resp es2 Hrun Hes.
  - injection Hrun as <- <-. destruct es1; discriminate Hes.
  - rewrite attempts_step in Hrun.
    destruct (network w client req) as [resp0 | e].
    + injection Hrun as <- <-.
      destruct es1 as [| a es1].
      * injection Hes as _ _ _ <-. split; [reflexivity |].
        cbn [http_calls length Z.of_nat]. rewrite Z.add_0_r. reflexivity.
      * injection Hes as _ Hes. destruct es1 as [| b es1]; [discriminate Hes |].
        injection Hes as _ Hes. destruct es1; discriminate Hes.
    + cbv zeta in Hrun.
      destruct (attempts n client req (attempt + 1) (Duration_mul d 2) (Some e) _)
        as [r' es'] eqn:Hrest.
      injection Hrun as <- <-.
      destruct es1 as [| a [| b [| c es1]]]; try discriminate Hes.
      injection Hes as <- <- <- Hes.
      destruct (IH _ _ _ _ _ _ _ _ _ _ _ Hrest Hes) as [-> ->].
      split; [reflexivity |].
      cbn [http_calls length].
      replace (attempt + Z.of_nat (S (length (http_calls es1))) + 1)%Z
        with (attempt + 1 + Z.of_nat (length (http_calls es1)) + 1)%Z by lia.
      reflexivity.
Qed.

(** C2: every call of the transport that returns without an error, whatever
    the status code of the response, ends [submitWebhook] with success: only
    the log line of the success follows the call, no wait and no further
    attempt.  In particular, when the transport fails on the first two
    attempts and answers on the third, [submitWebhook] returns success after
    exactly three attempts and the two waits that separate them. *)
Theorem submitWebhook_success_stops payload url w r es
    (Hrun : submitWebhook payload url w = (r, es)) :
  (forall es1 c req resp es2,
      es = es1 ++ EffDo c req (Ok resp) :: es2 ->
      r = None /\
      es2 = [EffLog InfoLevel
               ("Successfully submitted webhook on attempt "
                +:+ fmt_d (Z.of_nat (length (http_calls es1)) + 1))]) /\
  (forall postBody signature e1 e2 resp,
      json_Marshal payload = Ok postBody ->
      http_NewRequest_check MethodPost url = None ->
      getMessageDigestOrSignature postBody (WhatsappWebhookSecret config)
      = Ok signature ->
      let req := webhook_request url postBody signature in
      network w webhook_client req = Err e1 ->
      network (w ++ failed_attempt 1 req e1 (1 * Second)) webhook_client req = Err e2 ->
      network (w ++ failed_attempt 1 req e1 (1 * Second)
                 ++ failed_attempt 2 req e2 (2 * Second)) webhook_client req
      = Ok resp ->
      r = None /\
      es = failed_attempt 1 req e1 (1 * Second)
           ++ failed_attempt 2 req e2 (2 * Second)
           ++ successful_attempt 3 req resp /\
      length (http_calls es) = 3%nat /\
      sleeps es = [1 * Second; 2 * Second]%Z).
Proof.
  split.
  - intros es1 c req resp es2 Hes.
    unfold submitWebhook in Hrun.
    destruct (json_Marshal payload) as [postBody | err];
      [| injection Hrun as <- <-; destruct es1; discriminate Hes].
    destruct (http_NewRequest MethodPost url postBody) as [req0 | err];
      [| injection Hrun as <- <-; destruct es1; discriminate Hes].
    destruct (getMessageDigestOrSignature postBody (WhatsappWebhookSecret config))
      as [signature | err];
      [| injection Hrun as <- <-; destruct es1; discriminate Hes].
    exact (attempts_success _ _ _ _ _ _ _ _ _ _ _ _ _ _ Hrun Hes).
  - intros postBody signature e1 e2 resp Hser Hreq Hsig req H1 H2 H3.
    rewrite (submitWebhook_prepared _ _ _ _ _ Hser Hreq Hsig) in Hrun.
    fold req in Hrun.
    known_step Hrun H1. known_step Hrun H2.
    rewrite <- app_assoc in Hrun. known_step Hrun H3.
    injection Hrun as <- <-.
    repeat split; reflexivity.
Qed.

(** C9: when the payload is serialized, every request [submitWebhook] hands
    to the transport is a POST to the endpoint whose body is the serialized
    payload, with the content type [application/json] and, as
    [X-Hub-Signature-256], the text [sha256=] followed by the signature the
    signer computed over that body with the configured secret; and when the
    request is built and signed, such a request is sent. *)
Theorem submitWebhook_request payload url w postBody
    (Hser : json_Marshal payload = Ok postBody) :
  (forall c req r,
      In (EffDo c req r) (snd (submitWebhook payload url w)) ->
      exists signature,
        getMessageDigestOrSignature postBody (WhatsappWebhookSecret config)
        = Ok signature /\
        Method req = "POST" /\
        URL req = url /\
        Body req = postBody /\
        Header req !! "Content-Type" = Some ["application/json"] /\
        Header req !! "X-Hub-Signature-256" = Some ["sha256=" +:+ signature] /\
        req = webhook_request url postBody signature /\
        Timeout c = (10 * Second)%Z) /\
  (forall signature,
      http_NewRequest_check MethodPost url = None ->
      getMessageDigestOrSignature postBody (WhatsappWebhookSecret config)
      = Ok signature ->
      exists r es,
        snd (submitWebhook payload url w)
        = EffDo webhook_client (webhook_request url postBody signature) r :: es).
Proof.
  split.
  - intros c req r Hin. unfold submitWebhook, http_NewRequest in Hin.
    rewrite Hser in Hin.
    destruct (http_NewRequest_check MethodPost url) as [err |]; [destruct Hin |].
    destruct (getMessageDigestOrSignature postBody (WhatsappWebhookSecret config))
      as [signature | err]; [| destruct Hin].
    apply attempts_calls in Hin. destruct Hin as [-> ->].
    exists signature. repeat split; reflexivity.
  - intros signature Hreq Hsig.
    rewrite (submitWebhook_prepared _ _ _ _ _ Hser Hreq Hsig), attempts_step.
    destruct (network w webhook_client _) as [resp | e].
    + eexists. eexists. reflexivity.
    + cbv zeta. destruct (attempts 4 _ _ _ _ _ _) as [r' es']. eexists. eexists.
      reflexivity.
Qed.

(** ** The fan-out *)

Lemma range_webhooks_deliveries payload urls :
  forall w r es,
    range_webhooks payload urls w = (r, es) ->
    exists outs,
      Deliveries payload w outs es /\ stops_at_first_failure urls outs r.
Proof.
  induction urls as [| url rest IH]; intros w r es Hrun.
  - injection Hrun as <- <-. exists []. split; [constructor | left; split; reflexivity].
  - cbn [range_webhooks] in Hrun. unfold bind at 1 in Hrun.
    destruct (submitWebhook payload url w) as [[e |] es1] eqn:Hsub.
    + unfold ret in Hrun. injection Hrun as <- <-.
      exists [(url, Some e)]. split.
      * econstructor; [exact Hsub | constructor].
      * right. exists [], url, e, rest. repeat split; reflexivity.
    + destruct (range_webhooks payload rest (w ++ es1)) as [r' es2] eqn:Hrest.
      injection Hrun as <- <-.
      destruct (IH _ _ _ Hrest) as (outs & Hdel & Hstop).
      exists ((url, None) :: outs). split.
      * econstructor; [exact Hsub | exact Hdel].
      * destruct Hstop as [[-> ->] | (pre & u & e & post & -> & -> & ->)].
        -- left. split; reflexivity.
        -- right. exists (url :: pre), u, e, post. repeat split; reflexivity.
Qed.

(** A delivery that failed is not among deliveries that all succeeded. *)
Lemma Deliveries_failed_not_all payload pre :
  forall w url e post es es',
    Deliveries payload w (map (fun u => (u, None)) pre ++ [(url, Some e)]) es ->
    Deliveries payload w (map (fun u => (u, None)) (pre ++ url :: post)) es' ->
    False.
Proof.
  induction pre as [| u pre IH]; intros w url e post es es' Hfail Hall;
    cbn [map app] in Hfail, Hall.
  - inversion Hfail as [| ? ? ? ? ? ? Hsub1 _]; subst.
    inversion Hall as [| ? ? ? ? ? ? Hsub2 _]; subst.
    rewrite Hsub1 in Hsub2. discriminate Hsub2.
  - inversion Hfail as [| ? ? ? es1 ? ? Hsub1 Hrest1]; subst.
    inversion Hall as [| ? ? ? es2 ? ? Hsub2 Hrest2]; subst.
    rewrite Hsub1 in Hsub2. injection Hsub2 as <-.
    exact (IH _ _ _ _ _ _ Hrest1 Hrest2).
Qed.

Lemma forwardToWebhook_run evt w :
  let greeting :=
    EffLog InfoLevel
      ("Forwarding event to webhook:" +:+ fmt_v_strings (WhatsappWebhook config)) in
  forwardToWebhook evt w =
  match switch_event evt (w ++ [greeting]) with
  | (Err err, es_b) => (Some err, greeting :: es_b)
  | (Ok payload, es_b) =>
      match range_webhooks payload (WhatsappWebhook config) (w ++ greeting :: es_b) with
      | (Some e, es_d) => (Some e, greeting :: es_b ++ es_d)
      | (None, es_d) =>
          (None, greeting :: es_b ++ es_d ++ [EffLog InfoLevel "Event forwarded to webhook"])
      end
  end.
Proof.
  intros greeting. unfold forwardToWebhook. unfold bind at 1. unfold logrus at 1.
  fold greeting. unfold bind at 1.
  destruct (switch_event evt (w ++ [greeting])) as [[payload | err] es_b].
  - unfold bind at 1. rewrite <- app_assoc. cbn [app].
    destruct (range_webhooks payload (WhatsappWebhook config) (w ++ greeting :: es_b))
      as [[e |] es_d].
    + unfold ret. rewrite !app_nil_r. reflexivity.
    + unfold bind, logrus, ret. cbn [app]. reflexivity.
  - unfold ret. rewrite app_nil_r. reflexivity.
Qed.

(** C3: [forwardToWebhook] logs, builds the payload once, and, when the
    build succeeds, invokes the delivery engine with that one payload for
    the endpoints in list order, each in the world the previous delivery
    left; it stops at the first delivery that fails and returns its error,
    attempting no later endpoint; and it returns success exactly when the
    build succeeds and the delivery to every endpoint succeeds. *)
Theorem forwardToWebhook_fan_out evt w :
  let greeting :=
    EffLog InfoLevel
      ("Forwarding event to webhook:" +:+ fmt_v_strings (WhatsappWebhook config)) in
  exists b es_b,
    switch_event evt (w ++ [greeting]) = (b, es_b) /\
    match b with
    | Err err => forwardToWebhook evt w = (Some err, greeting :: es_b)
    | Ok payload =>
        exists outs es_d r,
          Deliveries payload (w ++ greeting :: es_b) outs es_d /\
          stops_at_first_failure (WhatsappWebhook config) outs r /\
          forwardToWebhook evt w =
          (r, greeting :: es_b ++ es_d
              ++ match r with
                 | None => [EffLog InfoLevel "Event forwarded to webhook"]
                 | Some _ => []
                 end)
    end /\
    (fst (forwardToWebhook evt w) = None <->
     exists payload es_d,
       b = Ok payload /\
       Deliveries payload (w ++ greeting :: es_b)
                  (map (fun url => (url, None)) (WhatsappWebhook config)) es_d).
Proof.
  intros greeting. pose proof (forwardToWebhook_run evt w) as Hrun.
  cbv zeta in Hrun. fold greeting in Hrun.
  destruct (switch_event evt (w ++ [greeting])) as [[payload | err] es_b].
  - exists (Ok payload), es_b. split; [reflexivity |].
    destruct (range_webhooks payload (WhatsappWebhook config) (w ++ greeting :: es_b))
      as [r es_d] eqn:Hrange.
    destruct (range_webhooks_deliveries _ _ _ _ _ Hrange) as (outs & Hdel & Hstop).
    split.
    + exists outs, es_d, r. repeat split; [exact Hdel | exact Hstop |].
      rewrite Hrun. destruct r; [rewrite app_nil_r |]; reflexivity.
    + rewrite Hrun. split.
      * intros Hnone. exists payload, es_d. split; [reflexivity |].
        destruct r; [discriminate Hnone |].
        destruct Hstop as [[_ ->] | (? & ? & ? & ? & _ & _ & Hr)];
          [exact Hdel | discriminate Hr].
      * intros (payload' & es_d' & Hb & Hall). injection Hb as <-.
        destruct Hstop as [[-> _] | (pre & u & e & post & Hurls & -> & ->)];
          [reflexivity |].
        rewrite Hurls in Hall.
        destruct (Deliveries_failed_not_all _ _ _ _ _ _ _ _ Hdel Hall).
  - exists (Err err), es_b. split; [reflexivity |]. split; [exact Hrun |].
    rewrite Hrun. split; [discriminate |].
    intros (payload & es_d & Hb & _). discriminate Hb.
Qed.

(** C10 (amended): with no endpoint configured, [forwardToWebhook] still
    builds the payload, makes no delivery attempt, sends no HTTP request and
    waits for nothing, and returns what the build returned: success when the
    build succeeds, which it always does for a receipt and for a presence and
    does for a message exactly when no media extraction failed, and the error
    of the build otherwise. *)
Theorem forwardToWebhook_no_endpoints evt w
    (Hnone : WhatsappWebhook config = []) :
  let greeting := EffLog InfoLevel "Forwarding event to webhook:[]" in
  exists b es_b,
    switch_event evt (w ++ [greeting]) = (b, es_b) /\
    forwardToWebhook evt w =
    (match b with
     | Ok _ => None
     | Err err => Some err
     end,
     greeting :: es_b
     ++ match b with
        | Ok _ => [EffLog InfoLevel "Event forwarded to webhook"]
        | Err _ => []
        end) /\
    no_delivery (snd (forwardToWebhook evt w)) /\
    match evt with
    | EvMessage _ =>
        fst (forwardToWebhook evt w) = None <->
        (forall root m cause, ~ In (EffExtract root m (Err cause)) es_b)
    | EvReceipt _ => fst (forwardToWebhook evt w) = None
    | EvPresence _ => fst (forwardToWebhook evt w) = None
    | EvOther type_name =>
        fst (forwardToWebhook evt w)
        = Some (errorString ("unsupported event type: " +:+ type_name))
    end.
Proof.
  intros greeting. pose proof (forwardToWebhook_run evt w) as Hrun.
  cbv zeta in Hrun. rewrite Hnone in Hrun.
  change (EffLog InfoLevel ("Forwarding event to webhook:" +:+ fmt_v_strings []))
    with greeting in Hrun.
  pose proof (switch_event_no_delivery evt (w ++ [greeting])) as Hquiet.
  assert (Hmsg : forall e, evt = EvMessage e ->
                           media_outcome e (switch_event evt (w ++ [greeting]))).
  { intros e ->. apply createPayload_outcome. }
  destruct (switch_event evt (w ++ [greeting])) as [b es_b] eqn:Hb.
  exists b, es_b. split; [reflexivity |].
  assert (Hfwd : forwardToWebhook evt w =
                 (match b with Ok _ => None | Err err => Some err end,
                  greeting :: es_b
                  ++ match b with
                     | Ok _ => [EffLog InfoLevel "Event forwarded to webhook"]
                     | Err _ => []
                     end)).
  { rewrite Hrun. destruct b; [reflexivity | rewrite app_nil_r; reflexivity]. }
  split; [exact Hfwd |]. rewrite Hfwd. cbn [fst snd]. split.
  - change (greeting :: es_b ++ _) with ([greeting] ++ es_b ++
      match b with
      | Ok _ => [EffLog InfoLevel "Event forwarded to webhook"]
      | Err _ => []
      end).
    apply no_delivery_app; [split; reflexivity |].
    apply no_delivery_app; [exact Hquiet |]. destruct b; split; reflexivity.
  - destruct evt as [e | e | e | type_name]; cbn [switch_event] in Hb.
    + destruct (Hmsg e eq_refl) as [Hfail Herr]. cbn [fst snd] in Hfail, Herr.
      split.
      * intros Hok root m cause Hin.
        destruct (Hfail root m cause Hin) as (_ & _ & Hbad & _).
        rewrite Hbad in Hok. discriminate Hok.
      * intros Hclean. destruct b as [payload | err]; [reflexivity |].
        destruct (Herr err eq_refl) as (root & m & cause & Hin).
        destruct (Hclean root m cause Hin).
    + unfold createReceiptPayload, ret in Hb. cbv zeta in Hb.
      injection Hb as <- _. reflexivity.
    + rewrite createPresencePayload_run in Hb. injection Hb as <- _. reflexivity.
    + injection Hb as <- _. reflexivity.
Qed.

(** * Further properties *)

(** ** Bounds of the retry loop *)

Lemma doubling_backoff n :
  (n <= 5)%nat -> doubling Second n = take n backoff.
Proof.
  intros Hn. do 6 (destruct n as [| n]; [reflexivity |]). lia.
Qed.

Lemma backoff_total n :
  (n <= 5)%nat -> (0 <= fold_right Z.add 0 (take n backoff) <= 31 * Second)%Z.
Proof.
  intros Hn.
  do 6 (destruct n as [| n]; [vm_compute; split; discriminate |]). lia.
Qed.

(** What a run of the loop with [remaining] attempts left leaves behind. *)
Lemma attempts_bounds remaining client req :
  forall attempt d err w r es,
    attempts remaining client req attempt d err w = (r, es) ->
    (length (http_calls es) <= remaining)%nat /\
    sleeps es = doubling d (length (failed_calls es)) /\
    match r with
    | None =>
        (exists resp, answered_calls es = [(req, Ok resp)]) /\
        (length (failed_calls es) < remaining)%nat
    | Some e =>
        answered_calls es = [] /\
        length (failed_calls es) = remaining /\
        exists last,
          e = WebhookError
                ("error when submit webhook after "
                 +:+ fmt_d (attempt + Z.of_nat remaining)
                 +:+ " attempts: " +:+ fmt_v_error last) /\
          (remaining = O -> last = err) /\
          ((0 < remaining)%nat -> exists cause, last = Some cause)
    end.
Proof.
  induction remaining as [| n IH]; intros attempt d err w r es Hrun.
  - injection Hrun as <- <-. cbn. rewrite Z.add_0_r.
    split; [apply Nat.le_refl |]. split; [reflexivity |].
    split; [reflexivity |]. split; [reflexivity |].
    exists err. split; [reflexivity |].
    split; [intros _; reflexivity | intros H; inversion H].
  - rewrite attempts_step in Hrun.
    destruct (network w client req) as [resp | e].
    + injection Hrun as <- <-. cbn. repeat split; try lia.
      exists resp. reflexivity.
    + cbv zeta in Hrun.
      destruct (attempts n client req (attempt + 1) (Duration_mul d 2) (Some e) _)
        as [r' es'] eqn:Hrest.
      injection Hrun as <- <-.
      destruct (IH _ _ _ _ _ _ Hrest) as (Hlen & Hsleeps & Hr).
      unfold failed_calls, answered_calls in *.
      cbn [app http_calls sleeps List.filter is_Err negb snd length doubling].
      split; [lia |]. split; [rewrite Hsleeps; reflexivity |].
      destruct r' as [e' |].
      * destruct Hr as (Hans & Hfailed & last & -> & Hzero & Hpos).
        split; [exact Hans |]. split; [rewrite Hfailed; reflexivity |].
        exists (match n with O => Some e | S _ => last end). split; [| split].
        -- replace (attempt + Z.of_nat (S n))%Z with (attempt + 1 + Z.of_nat n)%Z by lia.
           destruct n; [rewrite (Hzero eq_refl) |]; reflexivity.
        -- intros H. discriminate H.
        -- intros _. destruct n as [| n']; [eexists; reflexivity |].
           apply Hpos. lia.
      * destruct Hr as (Hans & Hfailed). split; [exact Hans | lia].
Qed.

Lemma submitWebhook_cases payload url w :
  (exists postBody signature,
      json_Marshal payload = Ok postBody /\
      http_NewRequest_check MethodPost url = None /\
      getMessageDigestOrSignature postBody (WhatsappWebhookSecret config)
      = Ok signature /\
      submitWebhook payload url w
      = attempts 5 webhook_client (webhook_request url postBody signature)
                 0 Second None w) \/
  (~ prepared payload url /\
   exists msg, submitWebhook payload url w = (Some (WebhookError msg), [])).
Proof.
  unfold submitWebhook, http_NewRequest, prepared.
  destruct (json_Marshal payload) as [postBody | err] eqn:Hser.
  - destruct (http_NewRequest_check MethodPost url) as [err |] eqn:Hreq.
    + right. split; [| eexists; reflexivity].
      intros (? & ? & _ & H & _). discriminate H.
    + destruct (getMessageDigestOrSignature postBody (WhatsappWebhookSecret config))
        as [signature | err] eqn:Hsig.
      * left. exists postBody, signature. repeat split; assumption.
      * right. split; [| eexists; reflexivity].
        intros (b & ? & Hb & _ & H). injection Hb as <-.
        rewrite Hsig in H. discriminate H.
  - right. split; [| eexists; reflexivity].
    intros (? & ? & H & _). discriminate H.
Qed.

(** X1: whatever the network does, one delivery makes at most five HTTP
    calls; it waits once after each failed call, for the first so many
    entries of 1, 2, 4, 8, 16 seconds, so for 31 seconds at most; it returns
    success exactly when one call was answered, which is then the last, and
    when it fails either nothing was sent or all five calls failed. *)
Theorem submitWebhook_bounded payload url w r es
    (Hrun : submitWebhook payload url w = (r, es)) :
  (length (http_calls es) <= 5)%nat /\
  length (http_calls es) = (length (failed_calls es) + length (answered_calls es))%nat /\
  sleeps es = take (length (failed_calls es)) backoff /\
  (0 <= total_wait es <= 31 * Second)%Z /\
  match r with
  | None => length (answered_calls es) = 1%nat /\ (length (failed_calls es) <= 4)%nat
  | Some _ =>
      answered_calls es = [] /\
      (http_calls es = [] \/ length (failed_calls es) = 5%nat)
  end.
Proof.
  assert (Hsplit : forall calls : list (Request * result Response),
             length calls
             = (length (List.filter (fun c : Request * result Response => is_Err c.2) calls)
                + length (List.filter
                            (fun c : Request * result Response => negb (is_Err c.2))
                            calls))%nat).
  { induction calls as [| [rq [resp | e]] calls IH]; cbn; lia. }
  destruct (submitWebhook_cases payload url w)
    as [(postBody & signature & _ & _ & _ & Heq) | (_ & msg & Heq)];
    rewrite Heq in Hrun.
  - destruct (attempts_bounds _ _ _ _ _ _ _ _ _ Hrun) as (Hlen & Hsleeps & Hr).
    assert (Hfailed : (length (failed_calls es) <= 5)%nat).
    { pose proof (Hsplit (http_calls es)). unfold failed_calls. lia. }
    rewrite (doubling_backoff _ Hfailed) in Hsleeps.
    split; [exact Hlen |]. split; [apply Hsplit |]. split; [exact Hsleeps |].
    split.
    + unfold total_wait. rewrite Hsleeps.
      apply backoff_total. exact Hfailed.
    + destruct r as [e |].
      * destruct Hr as (Hans & Hfive & _). split; [exact Hans | right; exact Hfive].
      * destruct Hr as ((resp & ->) & Hlt). split; [reflexivity | lia].
  - injection Hrun as <- <-. cbn. repeat split; try lia; try discriminate.
    left. reflexivity.
Qed.

(** X2: a delivery performs no effect at all, so sends and retries
    nothing, exactly when the payload cannot be serialized, the request
    cannot be built or the body cannot be signed; it then returns the error
    of the step that failed. *)
Theorem submitWebhook_not_prepared payload url w :
  (snd (submitWebhook payload url w) = [] <-> ~ prepared payload url) /\
  (forall err,
      json_Marshal payload = Err err ->
      submitWebhook payload url w
      = (Some (WebhookError ("Failed to marshal body: " +:+ Error err)), [])) /\
  (forall postBody err,
      json_Marshal payload = Ok postBody ->
      http_NewRequest_check MethodPost url = Some err ->
      submitWebhook payload url w
      = (Some (WebhookError ("error when create http object " +:+ Error err)), [])) /\
  (forall postBody err,
      json_Marshal payload = Ok postBody ->
      http_NewRequest_check MethodPost url = None ->
      getMessageDigestOrSignature postBody (WhatsappWebhookSecret config) = Err err ->
      submitWebhook payload url w
      = (Some (WebhookError ("error when create signature " +:+ Error err)), [])).
Proof.
  split; [| split; [| split]].
  - destruct (submitWebhook_cases payload url w)
      as [(postBody & signature & Hser & Hreq & Hsig & Heq) | (Hnot & msg & Heq)];
      rewrite Heq.
    + split.
      * rewrite attempts_step.
        destruct (network w webhook_client _); [discriminate |].
        cbv zeta. destruct (attempts 4 _ _ _ _ _ _). discriminate.
      * intros Hnot. destruct Hnot. exists postBody, signature.
        repeat split; assumption.
    + split; [intros _; exact Hnot | reflexivity].
  - intros err Hser. unfold submitWebhook. rewrite Hser. reflexivity.
  - intros postBody err Hser Hreq. unfold submitWebhook, http_NewRequest.
    rewrite Hser, Hreq. reflexivity.
  - intros postBody err Hser Hreq Hsig. unfold submitWebhook, http_NewRequest.
    rewrite Hser, Hreq, Hsig. reflexivity.
Qed.

(** The errors of one delivery. *)
Lemma submitWebhook_error payload url w e es :
  submitWebhook payload url w = (Some e, es) ->
  (exists err, e = WebhookError ("Failed to marshal body: " +:+ Error err)) \/
  (exists err, e = WebhookError ("error when create http object " +:+ Error err)) \/
  (exists err, e = WebhookError ("error when create signature " +:+ Error err)) \/
  (exists cause,
      e = WebhookError ("error when submit webhook after 5 attempts: " +:+ Error cause)).
Proof.
  unfold submitWebhook, http_NewRequest.
  destruct (json_Marshal payload) as [postBody | err].
  - destruct (http_NewRequest_check MethodPost url) as [err |].
    + intros Hrun. injection Hrun as <- _. right. left. eexists. reflexivity.
    + destruct (getMessageDigestOrSignature postBody (WhatsappWebhookSecret config))
        as [signature | err].
      * intros Hrun. apply attempts_bounds in Hrun.
        destruct Hrun as (_ & _ & _ & _ & last & -> & _ & Hpos).
        destruct Hpos as [cause ->]; [vm_compute; lia |].
        right. right. right. exists cause. reflexivity.
      * intros Hrun. injection Hrun as <- _. right. right. left.
        eexists. reflexivity.
  - intros Hrun. injection Hrun as <- _. left. eexists. reflexivity.
Qed.

Lemma range_webhooks_error payload urls :
  forall w e es,
    range_webhooks payload urls w = (Some e, es) ->
    exists url w' es', In url urls /\ submitWebhook payload url w' = (Some e, es').
Proof.
  induction urls as [| url rest IH]; intros w e es Hrun; [discriminate Hrun |].
  cbn [range_webhooks] in Hrun. unfold bind at 1 in Hrun.
  destruct (submitWebhook payload url w) as [[e' |] es1] eqn:Hsub.
  - unfold ret in Hrun. injection Hrun as <- _.
    exists url, w, es1. split; [left; reflexivity | exact Hsub].
  - destruct (range_webhooks payload rest (w ++ es1)) as [r' es2] eqn:Hrest.
    injection Hrun as -> _.
    destruct (IH _ _ _ Hrest) as (u & w' & es' & Hin & Hsub').
    exists u, w', es'. split; [right; exact Hin | exact Hsub'].
Qed.

(** X3: the errors [forwardToWebhook] can return are these six and no
    other: the refusal of an event of another type, the failed download of
    an attachment of the message, and the four errors of a delivery. *)
Theorem forwardToWebhook_error_kind evt w e es
    (Hrun : forwardToWebhook evt w = (Some e, es)) :
  (exists type_name,
      evt = EvOther type_name /\
      e = errorString ("unsupported event type: " +:+ type_name)) \/
  (exists msg m cause,
      evt = EvMessage msg /\ attached msg m /\
      e = WebhookError
            ("Failed to download " +:+ media_kind m +:+ ": " +:+ Error cause)) \/
  (exists err, e = WebhookError ("Failed to marshal body: " +:+ Error err)) \/
  (exists err, e = WebhookError ("error when create http object " +:+ Error err)) \/
  (exists err, e = WebhookError ("error when create signature " +:+ Error err)) \/
  (exists cause,
      e = WebhookError ("error when submit webhook after 5 attempts: " +:+ Error cause)).
Proof.
  pose proof (forwardToWebhook_run evt w) as Hfwd. cbv zeta in Hfwd.
  rewrite Hfwd in Hrun. clear Hfwd.
  destruct (switch_event evt _) as [[payload | err] es_b] eqn:Hb.
  - destruct (range_webhooks payload _ _) as [[e' |] es_d] eqn:Hrange;
      [| discriminate Hrun].
    injection Hrun as -> _.
    destruct (range_webhooks_error _ _ _ _ _ Hrange) as (url & w' & es' & _ & Hsub).
    right. right. exact (submitWebhook_error _ _ _ _ _ Hsub).
  - injection Hrun as -> _.
    destruct evt as [msg | rcpt | pres | type_name]; cbn [switch_event] in Hb.
    + pose proof (createPayload_outcome msg (w ++ [EffLog InfoLevel
        ("Forwarding event to webhook:" +:+ fmt_v_strings (WhatsappWebhook config))]))
        as [Hfail Herr].
      rewrite Hb in Hfail, Herr. cbn [fst snd] in Hfail, Herr.
      destruct (Herr e eq_refl) as (root & m & cause & Hin).
      destruct (Hfail root m cause Hin) as (Hatt & _ & He & _).
      injection He as ->.
      right. left. exists msg, m, cause. repeat split. exact Hatt.
    + discriminate Hb.
    + rewrite createPresencePayload_run in Hb. discriminate Hb.
    + injection Hb as <- _. left. exists type_name. split; reflexivity.
Qed.

(** ** Who is reached *)

Lemma answered_calls_app es1 es2 :
  answered_calls (es1 ++ es2) = answered_calls es1 ++ answered_calls es2.
Proof. unfold answered_calls. rewrite http_calls_app. apply List.filter_app. Qed.

Lemma failed_calls_app es1 es2 :
  failed_calls (es1 ++ es2) = failed_calls es1 ++ failed_calls es2.
Proof. unfold failed_calls. rewrite http_calls_app. apply List.filter_app. Qed.

Lemma total_wait_app es1 es2 :
  total_wait (es1 ++ es2) = (total_wait es1 + total_wait es2)%Z.
Proof.
  unfold total_wait. rewrite sleeps_app.
  induction (sleeps es1) as [| d ds IH]; cbn [app fold_right]; [reflexivity |].
  rewrite IH. lia.
Qed.

Lemma submitWebhook_answered payload url w r es :
  submitWebhook payload url w = (r, es) ->
  map (fun call : Request * result Response => URL call.1) (answered_calls es)
  = match r with
    | None => [url]
    | Some _ => []
    end.
Proof.
  intros Hrun.
  destruct (submitWebhook_cases payload url w)
    as [(postBody & signature & _ & _ & _ & Heq) | (_ & msg & Heq)];
    rewrite Heq in Hrun.
  - apply attempts_bounds in Hrun. destruct Hrun as (_ & _ & Hr).
    destruct r as [e |].
    + destruct Hr as (-> & _). reflexivity.
    + destruct Hr as ((resp & ->) & _). reflexivity.
  - injection Hrun as <- <-. reflexivity.
Qed.

Lemma range_webhooks_answered payload urls :
  forall w r es,
    range_webhooks payload urls w = (r, es) ->
    map (fun call : Request * result Response => URL call.1) (answered_calls es)
    `prefix_of` urls /\
    (r = None ->
     map (fun call : Request * result Response => URL call.1) (answered_calls es)
     = urls).
Proof.
  induction urls as [| url rest IH]; intros w r es Hrun.
  - injection Hrun as <- <-. split; [apply prefix_nil | reflexivity].
  - cbn [range_webhooks] in Hrun. unfold bind at 1 in Hrun.
    destruct (submitWebhook payload url w) as [[e |] es1] eqn:Hsub.
    + unfold ret in Hrun. injection Hrun as <- <-.
      rewrite app_nil_r, (submitWebhook_answered _ _ _ _ _ Hsub).
      split; [apply prefix_nil | discriminate].
    + destruct (range_webhooks payload rest (w ++ es1)) as [r' es2] eqn:Hrest.
      injection Hrun as <- <-.
      destruct (IH _ _ _ Hrest) as (Hpre & Hall).
      rewrite answered_calls_app, map_app, (submitWebhook_answered _ _ _ _ _ Hsub).
      cbn [app]. split.
      * apply prefix_cons. exact Hpre.
      * intros Hr. rewrite (Hall Hr). reflexivity.
Qed.

(** X5: the endpoints that answered during one [forwardToWebhook], in the
    order of their answers, are an initial part of the configured list, each
    answering once; and when [forwardToWebhook] returns success they are the
    whole list. *)
Theorem forwardToWebhook_answered evt w r es
    (Hrun : forwardToWebhook evt w = (r, es)) :
  map (fun call : Request * result Response => URL call.1) (answered_calls es)
  `prefix_of` WhatsappWebhook config /\
  (r = None ->
   map (fun call : Request * result Response => URL call.1) (answered_calls es)
   = WhatsappWebhook config).
Proof.
  pose proof (forwardToWebhook_run evt w) as Hfwd. cbv zeta in Hfwd.
  rewrite Hfwd in Hrun. clear Hfwd.
  pose proof (switch_event_no_delivery evt (w ++ [EffLog InfoLevel
    ("Forwarding event to webhook:" +:+ fmt_v_strings (WhatsappWebhook config))]))
    as [Hquiet _].
  destruct (switch_event evt _) as [[payload | err] es_b]; cbn [snd] in Hquiet.
  - destruct (range_webhooks payload _ _) as [r' es_d] eqn:Hrange.
    destruct (range_webhooks_answered _ _ _ _ _ Hrange) as (Hpre & Hall).
    assert (Hans : forall tail,
               answered_calls (EffLog InfoLevel
                 ("Forwarding event to webhook:"
                  +:+ fmt_v_strings (WhatsappWebhook config)) :: es_b ++ es_d ++ tail)
               = answered_calls es_d ++ answered_calls tail).
    { intros tail.
      change (EffLog InfoLevel ?msg :: es_b ++ es_d ++ tail)
        with ([EffLog InfoLevel msg] ++ es_b ++ es_d ++ tail).
      rewrite !answered_calls_app. unfold answered_calls at 1 2.
      rewrite Hquiet. reflexivity. }
    destruct r' as [e |]; injection Hrun as <- <-.
    + rewrite <- (app_nil_r es_d), Hans, app_nil_r. split; [exact Hpre | discriminate].
    + rewrite Hans, app_nil_r. split; [exact Hpre | exact Hall].
  - injection Hrun as <- <-.
    change (EffLog InfoLevel ?msg :: es_b) with ([EffLog InfoLevel msg] ++ es_b).
    rewrite answered_calls_app. unfold answered_calls. rewrite Hquiet.
    split; [apply prefix_nil | discriminate].
Qed.

(** ** What is sent, and when nothing is *)

Lemma In_http_calls c req res es :
  In (EffDo c req res) es -> In (req, res) (http_calls es).
Proof.
  induction es as [| e es IH]; [intros [] |].
  intros [-> | Hin]; [left; reflexivity |].
  destruct e; cbn [http_calls]; [| | | right |]; apply IH; exact Hin.
Qed.

Lemma In_extractions root m res es :
  In (EffExtract root m res) es -> In (m, res) (extractions es).
Proof.
  induction es as [| e es IH]; [intros [] |].
  intros [-> | Hin]; [left; reflexivity |].
  destruct e; cbn [extractions]; [| | right | |]; apply IH; exact Hin.
Qed.

Lemma extractions_app es1 es2 :
  extractions (es1 ++ es2) = extractions es1 ++ extractions es2.
Proof.
  induction es1 as [| [] es1 IH]; cbn [app extractions]; rewrite ?IH; reflexivity.
Qed.

Lemma attempts_effects remaining client req :
  forall attempt d err w,
    Forall delivery_effect (attempts remaining client req attempt d err w).2.
Proof.
  induction remaining as [| n IH]; intros attempt d err w; [constructor |].
  rewrite attempts_step.
  destruct (network w client req) as [resp | e].
  - repeat constructor.
  - cbv zeta. specialize (IH (attempt + 1)%Z (Duration_mul d 2) (Some e)).
    match goal with
    | |- context [attempts n client req ?a ?dd ?ee ?ww] =>
        specialize (IH ww); destruct (attempts n client req a dd ee ww) as [r es]
    end.
    cbn [snd app] in *. repeat constructor. exact IH.
Qed.

Lemma submitWebhook_effects payload url w :
  Forall delivery_effect (submitWebhook payload url w).2.
Proof.
  destruct (submitWebhook_cases payload url w)
    as [(postBody & signature & _ & _ & _ & Heq) | (_ & msg & Heq)]; rewrite Heq.
  - apply attempts_effects.
  - constructor.
Qed.

Lemma range_webhooks_effects payload urls :
  forall w, Forall delivery_effect (range_webhooks payload urls w).2.
Proof.
  induction urls as [| url rest IH]; intros w; [constructor |].
  cbn [range_webhooks]. unfold bind at 1.
  pose proof (submitWebhook_effects payload url w) as Hsub.
  destruct (submitWebhook payload url w) as [[e |] es1]; cbn [snd] in Hsub.
  - unfold ret. rewrite app_nil_r. exact Hsub.
  - specialize (IH (w ++ es1)).
    destruct (range_webhooks payload rest (w ++ es1)) as [r es2].
    apply Forall_app. split; assumption.
Qed.

Lemma bindE_effects {A B} (P : Effect -> Prop)
    (m : M (result A)) (f : A -> M (result B)) w :
  Forall P (m w).2 -> (forall a w', Forall P (f a w').2) -> Forall P (bindE m f w).2.
Proof.
  intros Hm Hf. rewrite bindE_run.
  destruct (m w) as [[a | e] es1]; [| exact Hm].
  specialize (Hf a (w ++ es1)). destruct (f a (w ++ es1)) as [r es2].
  apply Forall_app. split; assumption.
Qed.

Lemma media_block_effects kind media evt body w :
  Forall builder_effect (media_block kind media evt body w).2.
Proof.
  rewrite media_block_run. destruct media as [m |]; [| constructor].
  destruct (storage w (PathMedia config) m); repeat constructor.
Qed.

Lemma switch_event_builder evt w : Forall builder_effect (switch_event evt w).2.
Proof.
  destruct evt as [e | e | e | type_name]; cbn [switch_event];
    try (repeat constructor).
  unfold createPayload. cbv zeta.
  repeat (apply bindE_effects; [apply media_block_effects | intros ? ?]).
  constructor.
Qed.

(** X15: a payload builder only extracts media, reads the clock and logs
    errors: it sends no HTTP request, never waits, and logs nothing at the
    other levels. *)
Theorem switch_event_effects evt w :
  Forall builder_effect (switch_event evt w).2 /\
  http_calls (switch_event evt w).2 = [] /\
  sleeps (switch_event evt w).2 = [] /\
  (forall lvl msg, In (EffLog lvl msg) (switch_event evt w).2 -> lvl = ErrorLevel).
Proof.
  pose proof (switch_event_builder evt w) as Hall.
  split; [exact Hall |].
  induction Hall as [| e es He Hes IH]; [repeat split; intros ? ? [] |].
  destruct IH as (Hcalls & Hsleeps & Hlogs).
  destruct e as [lvl msg | t | root m res | c req res | d];
    try destruct lvl; try destruct He; cbn [http_calls sleeps];
    (split; [exact Hcalls |]; split; [exact Hsleeps |]);
    intros lvl' msg' [Heq | Hin];
    try discriminate Heq; try (injection Heq as <- _; reflexivity);
    exact (Hlogs _ _ Hin).
Qed.

Lemma switch_event_failed_extraction evt w root m cause :
  In (EffExtract root m (Err cause)) (switch_event evt w).2 ->
  (switch_event evt w).1 = Err (download_failure m cause).
Proof.
  destruct evt as [e | e | e | type_name]; cbn [switch_event].
  - intros Hin. destruct (createPayload_outcome e w) as [Hfail _].
    destruct (Hfail root m cause Hin) as (_ & _ & Hr & _). exact Hr.
  - intros [].
  - rewrite createPresencePayload_run. intros [Heq | []]. discriminate Heq.
  - intros [].
Qed.

Lemma delivery_not_extraction es root m res :
  Forall delivery_effect es -> ~ In (EffExtract root m res) es.
Proof.
  intros Hall Hin. rewrite List.Forall_forall in Hall. exact (Hall _ Hin).
Qed.

(** X4: when a media extraction fails during [forwardToWebhook], no HTTP
    request is sent to any endpoint, nothing is waited for, and the error
    returned is that of the download. *)
Theorem forwardToWebhook_failed_download evt w r es root m cause
    (Hrun : forwardToWebhook evt w = (r, es))
    (Hfail : In (EffExtract root m (Err cause)) es) :
  r = Some (WebhookError
              ("Failed to download " +:+ media_kind m +:+ ": " +:+ Error cause)) /\
  http_calls es = [] /\
  sleeps es = [].
Proof.
  pose proof (forwardToWebhook_run evt w) as Hfwd. cbv zeta in Hfwd.
  rewrite Hfwd in Hrun. clear Hfwd.
  set (greeting := EffLog InfoLevel
         ("Forwarding event to webhook:" +:+ fmt_v_strings (WhatsappWebhook config)))
    in *.
  pose proof (switch_event_failed_extraction evt (w ++ [greeting]) root m cause) as Hbad.
  pose proof (switch_event_no_delivery evt (w ++ [greeting])) as [Hcalls Hsleeps].
  destruct (switch_event evt (w ++ [greeting])) as [[payload | err] es_b];
    cbn [fst snd] in Hbad, Hcalls, Hsleeps.
  - exfalso.
    pose proof (range_webhooks_effects payload (WhatsappWebhook config)
                  (w ++ greeting :: es_b)) as Hdel.
    destruct (range_webhooks payload _ _) as [[e |] es_d]; cbn [snd] in Hdel;
      injection Hrun as _ <-;
      destruct Hfail as [Heq | Hin]; try discriminate Heq;
      apply in_app_or in Hin; destruct Hin as [Hin | Hin];
      try (specialize (Hbad Hin); discriminate Hbad);
      try (apply in_app_or in Hin; destruct Hin as [Hin | Hin]);
      try (exact (delivery_not_extraction _ _ _ _ Hdel Hin));
      destruct Hin as [Heq | []]; discriminate Heq.
  - injection Hrun as <- <-.
    destruct Hfail as [Heq | Hin]; [discriminate Heq |].
    specialize (Hbad Hin). injection Hbad as ->.
    repeat split; cbn [http_calls sleeps]; assumption.
Qed.

Lemma submitWebhook_calls payload url w c req res :
  In (EffDo c req res) (submitWebhook payload url w).2 ->
  c = webhook_client /\
  exists postBody signature,
    json_Marshal payload = Ok postBody /\
    getMessageDigestOrSignature postBody (WhatsappWebhookSecret config)
    = Ok signature /\
    req = webhook_request url postBody signature.
Proof.
  destruct (submitWebhook_cases payload url w)
    as [(postBody & signature & Hser & _ & Hsig & Heq) | (_ & msg & Heq)]; rewrite Heq.
  - intros Hin. apply attempts_calls in Hin. destruct Hin as [-> ->].
    split; [reflexivity |]. exists postBody, signature. repeat split; assumption.
  - intros [].
Qed.

Lemma range_webhooks_calls payload urls :
  forall w c req res,
    In (EffDo c req res) (range_webhooks payload urls w).2 ->
    c = webhook_client /\
    In (URL req) urls /\
    exists postBody signature,
      json_Marshal payload = Ok postBody /\
      getMessageDigestOrSignature postBody (WhatsappWebhookSecret config)
      = Ok signature /\
      req = webhook_request (URL req) postBody signature.
Proof.
  induction urls as [| url rest IH]; intros w c req res; [intros [] |].
  cbn [range_webhooks]. unfold bind at 1.
  pose proof (submitWebhook_calls payload url w c req res) as Hsub.
  destruct (submitWebhook payload url w) as [[e |] es1]; cbn [snd] in Hsub.
  - unfold ret. rewrite app_nil_r. cbn [snd]. intros Hin.
    destruct (Hsub Hin) as (-> & postBody & signature & Hser & Hsig & ->).
    split; [reflexivity |]. split; [left; reflexivity |].
    exists postBody, signature. repeat split; assumption.
  - specialize (IH (w ++ es1) c req res).
    destruct (range_webhooks payload rest (w ++ es1)) as [r es2].
    cbn [snd] in *. intros Hin. apply in_app_or in Hin.
    destruct Hin as [Hin | Hin].
    + destruct (Hsub Hin) as (-> & postBody & signature & Hser & Hsig & ->).
      split; [reflexivity |]. split; [left; reflexivity |].
      exists postBody, signature. repeat split; assumption.
    + destruct (IH Hin) as (-> & Hurl & Hreq).
      split; [reflexivity |]. split; [right; exact Hurl | exact Hreq].
Qed.

(** X6: all the requests handed to the transport during one
    [forwardToWebhook] are POST requests of the same client, with its timeout
    of ten seconds, to configured endpoints, and they have the same two
    headers: the content type [application/json] and, under
    [X-Hub-Signature-256], the word [sha256=] followed by the signature of
    the serialized payload of the event under the configured secret. *)
Theorem forwardToWebhook_same_request evt w r es
    (Hrun : forwardToWebhook evt w = (r, es)) :
  exists postBody signature,
    forall c req res,
      In (EffDo c req res) es ->
      c = webhook_client /\
      In (URL req) (WhatsappWebhook config) /\
      Method req = "POST" /\
      Header req
      = <["X-Hub-Signature-256" := ["sha256=" +:+ signature]]>
          (<["Content-Type" := ["application/json"]]> ∅) /\
      serialized
        (switch_event evt
           (w ++ [EffLog InfoLevel
                    ("Forwarding event to webhook:"
                     +:+ fmt_v_strings (WhatsappWebhook config))])).1
      = Ok postBody /\
      getMessageDigestOrSignature postBody (WhatsappWebhookSecret config)
      = Ok signature.
Proof.
  pose proof (forwardToWebhook_run evt w) as Hfwd. cbv zeta in Hfwd.
  rewrite Hfwd in Hrun. clear Hfwd.
  set (greeting := EffLog InfoLevel
         ("Forwarding event to webhook:" +:+ fmt_v_strings (WhatsappWebhook config)))
    in *.
  pose proof (switch_event_no_delivery evt (w ++ [greeting])) as [Hquiet _].
  destruct (switch_event evt (w ++ [greeting])) as [[payload | err] es_b];
    cbn [fst snd serialized] in *.
  - pose proof (range_webhooks_calls payload (WhatsappWebhook config)
                  (w ++ greeting :: es_b)) as Hcalls.
    assert (Hes : forall c req res,
               In (EffDo c req res) es ->
               In (EffDo c req res)
                  (range_webhooks payload (WhatsappWebhook config)
                     (w ++ greeting :: es_b)).2).
    { intros c req res Hin.
      destruct (range_webhooks payload _ _) as [[e |] es_d]; cbn [snd];
        injection Hrun as _ <-;
        (destruct Hin as [Heq | Hin]; [discriminate Heq |]);
        apply in_app_or in Hin; destruct Hin as [Hin | Hin];
        try (apply In_http_calls in Hin; rewrite Hquiet in Hin; destruct Hin);
        try exact Hin.
      apply in_app_or in Hin. destruct Hin as [Hin | [Heq | []]];
        [exact Hin | discriminate Heq]. }
    destruct (json_Marshal payload) as [postBody | err] eqn:Hser.
    + destruct (getMessageDigestOrSignature postBody (WhatsappWebhookSecret config))
        as [signature | err] eqn:Hsig.
      * exists postBody, signature. intros c req res Hin.
        destruct (Hcalls c req res (Hes c req res Hin))
          as (-> & Hurl & postBody' & signature' & Hser' & Hsig' & Hreq).
        injection Hser' as <-. rewrite Hsig in Hsig'. injection Hsig' as <-.
        rewrite Hreq. repeat split; assumption.
      * exists postBody, "". intros c req res Hin.
        destruct (Hcalls c req res (Hes c req res Hin))
          as (_ & _ & postBody' & signature' & Hser' & Hsig' & _).
        injection Hser' as <-. rewrite Hsig in Hsig'. discriminate Hsig'.
    + exists "", "". intros c req res Hin.
      destruct (Hcalls c req res (Hes c req res Hin))
        as (_ & _ & postBody' & signature' & Hser' & _).
      discriminate Hser'.
  - exists "", "". intros c req res Hin. injection Hrun as _ <-.
    destruct Hin as [Heq | Hin]; [discriminate Heq |].
    apply In_http_calls in Hin. rewrite Hquiet in Hin. destruct Hin.
Qed.

(** X16: the line [Event forwarded to webhook] is logged exactly when
    [forwardToWebhook] returns success, and it is then the last effect. *)
Theorem forwardToWebhook_forwarded_log evt w r es
    (Hrun : forwardToWebhook evt w = (r, es)) :
  (In forwarded_log es <-> r = None) /\
  (r = None -> exists es0, es = es0 ++ [forwarded_log]).
Proof.
  pose proof (forwardToWebhook_run evt w) as Hfwd. cbv zeta in Hfwd.
  rewrite Hfwd in Hrun. clear Hfwd.
  set (greeting := EffLog InfoLevel
         ("Forwarding event to webhook:" +:+ fmt_v_strings (WhatsappWebhook config)))
    in *.
  assert (Hgreeting : greeting <> forwarded_log).
  { unfold greeting, forwarded_log. intros Heq. injection Heq as Heq.
    cbn in Heq. discriminate Heq. }
  pose proof (switch_event_builder evt (w ++ [greeting])) as Hbuild.
  assert (Hnot_b : forall es', Forall builder_effect es' -> ~ In forwarded_log es').
  { intros es' Hall Hin. rewrite List.Forall_forall in Hall. exact (Hall _ Hin). }
  assert (Hnot_d : forall es', Forall delivery_effect es' -> ~ In forwarded_log es').
  { intros es' Hall Hin. rewrite List.Forall_forall in Hall.
    specialize (Hall _ Hin). cbn in Hall. discriminate Hall. }
  destruct (switch_event evt (w ++ [greeting])) as [[payload | err] es_b];
    cbn [snd] in Hbuild.
  - pose proof (range_webhooks_effects payload (WhatsappWebhook config)
                  (w ++ greeting :: es_b)) as Hdel.
    destruct (range_webhooks payload _ _) as [[e |] es_d]; cbn [snd] in Hdel;
      injection Hrun as <- <-.
    + split; [| discriminate]. split; [| discriminate].
      intros [Heq | Hin]; [destruct (Hgreeting Heq) |].
      apply in_app_or in Hin. destruct Hin as [Hin | Hin].
      * destruct (Hnot_b _ Hbuild Hin).
      * destruct (Hnot_d _ Hdel Hin).
    + split.
      * split; [reflexivity |]. intros _. right.
        apply in_or_app. right. apply in_or_app. right. left. reflexivity.
      * intros _. exists (greeting :: es_b ++ es_d).
        cbn [app]. rewrite <- app_assoc. reflexivity.
  - injection Hrun as <- <-. split; [| discriminate]. split; [| discriminate].
    intros [Heq | Hin]; [destruct (Hgreeting Heq) |].
    destruct (Hnot_b _ Hbuild Hin).
Qed.

(** ** The payload of a message *)

Lemma media_block_ok kind media evt body w body' es :
  media_block kind media evt body w = (Ok body', es) ->
  exists path,
    body' = media_set kind path body /\
    es = media_effect media path /\
    (media = None <-> path = None).
Proof.
  rewrite media_block_run. destruct media as [m |].
  - destruct (storage w (PathMedia config) m) as [p | err]; [| discriminate].
    intros Hrun. injection Hrun as <- <-. exists (Some p).
    repeat split; discriminate.
  - intros Hrun. injection Hrun as <- <-. exists None. repeat split; reflexivity.
Qed.

(** The payload and the effects of a build that succeeds. *)
Lemma createPayload_ok_shape evt w payload es :
  createPayload evt w = (Ok payload, es) ->
  exists pa pd pi ps pv : option string,
    payload
    = media_set "video" pv
        (media_set "sticker" ps
           (proto_block "order" (GetOrderMessage (Message evt))
              (proto_block "location" (GetLocationMessage (Message evt))
                 (proto_block "live_location" (GetLiveLocationMessage (Message evt))
                    (proto_block "list" (GetListMessage (Message evt))
                       (media_set "image" pi
                          (media_set "document" pd
                             (proto_block "contact" (GetContactMessage (Message evt))
                                (media_set "audio" pa (message_header evt)))))))))) /\
    es = media_effect (AudioMessage <$> GetAudioMessage (Message evt)) pa
         ++ media_effect (DocumentMessage <$> GetDocumentMessage (Message evt)) pd
         ++ media_effect (ImageMessage <$> GetImageMessage (Message evt)) pi
         ++ media_effect (StickerMessage <$> GetStickerMessage (Message evt)) ps
         ++ media_effect (VideoMessage <$> GetVideoMessage (Message evt)) pv /\
    (GetAudioMessage (Message evt) = None <-> pa = None) /\
    (GetDocumentMessage (Message evt) = None <-> pd = None) /\
    (GetImageMessage (Message evt) = None <-> pi = None) /\
    (GetStickerMessage (Message evt) = None <-> ps = None) /\
    (GetVideoMessage (Message evt) = None <-> pv = None).
Proof.
  unfold createPayload. cbv zeta. intros Hrun.
  apply bindE_ok in Hrun. destruct Hrun as (b1 & e1 & ? & H1 & Hrun & ->).
  apply bindE_ok in Hrun. destruct Hrun as (b2 & e2 & ? & H2 & Hrun & ->).
  apply bindE_ok in Hrun. destruct Hrun as (b3 & e3 & ? & H3 & Hrun & ->).
  apply bindE_ok in Hrun. destruct Hrun as (b4 & e4 & ? & H4 & Hrun & ->).
  apply bindE_ok in Hrun. destruct Hrun as (b5 & e5 & ? & H5 & Hrun & ->).
  injection Hrun as <- <-.
  apply media_block_ok in H1, H2, H3, H4, H5.
  destruct H1 as (pa & -> & -> & Ha), H2 as (pd & -> & -> & Hd),
    H3 as (pi & -> & -> & Hi), H4 as (ps & -> & -> & Hs), H5 as (pv & -> & -> & Hv).
  exists pa, pd, pi, ps, pv.
  split; [reflexivity |]. split; [rewrite app_nil_r; reflexivity |].
  assert (Hnone : forall (A : Type) (f : Proto -> A) (o : option Proto),
             f <$> o = None <-> o = None).
  { intros A f [x |]; split; intros H; try discriminate H; reflexivity. }
  rewrite Hnone in Ha, Hd, Hi, Hs, Hv.
  repeat split; tauto.
Qed.

Lemma media_set_lookup kind path (body : gmap string Value) k :
  media_set kind path body !! k =
  match (if bool_decide (kind = k) then path else None) with
  | Some p => Some (VString p)
  | None => body !! k
  end.
Proof.
  destruct path as [p |]; cbn [media_set].
  - rewrite lookup_insert. case_bool_decide as Hk.
    + rewrite decide_True by exact Hk. reflexivity.
    + rewrite decide_False by exact Hk. reflexivity.
  - case_bool_decide; reflexivity.
Qed.

Lemma proto_block_lookup key sub (body : gmap string Value) k :
  proto_block key sub body !! k =
  match (if bool_decide (key = k) then sub else None) with
  | Some m => Some (VProto m)
  | None => body !! k
  end.
Proof.
  destruct sub as [m |]; cbn [proto_block].
  - rewrite lookup_insert. case_bool_decide as Hk.
    + rewrite decide_True by exact Hk. reflexivity.
    + rewrite decide_False by exact Hk. reflexivity.
  - case_bool_decide; reflexivity.
Qed.

Lemma message_header_lookup evt k :
  message_header evt !! k =
  if nonempty (time_Format (Timestamp (Info evt)) RFC3339)
     && bool_decide ("timestamp" = k)
  then Some (VString (time_Format (Timestamp (Info evt)) RFC3339))
  else if buildForwarded evt && bool_decide ("forwarded" = k)
  then Some (VBool (buildForwarded evt))
  else if IsViewOnce evt && bool_decide ("view_once" = k)
  then Some (VBool (IsViewOnce evt))
  else if nonempty (ReactionMessage (buildEventReaction evt))
          && bool_decide ("reaction" = k)
  then Some (VReaction (buildEventReaction evt))
  else if nonempty (PushName (Info evt)) && bool_decide ("pushname" = k)
  then Some (VString (PushName (Info evt)))
  else if nonempty (Text (buildEventMessage evt)) && bool_decide ("message" = k)
  then Some (VMessage (buildEventMessage evt))
  else if nonempty (SourceString (Source (Info evt))) && bool_decide ("from" = k)
  then Some (VString (SourceString (Source (Info evt))))
  else if bool_decide ("event_type" = k)
  then Some (VString "message")
  else None.
Proof.
  unfold message_header. rewrite !set_if_lookup, lookup_insert, lookup_empty.
  destruct (decide ("event_type" = k)) as [Hk | Hk].
  - rewrite (bool_decide_eq_true_2 _ Hk). reflexivity.
  - rewrite (bool_decide_eq_false_2 _ Hk). reflexivity.
Qed.

Lemma media_set_lookup_ne kind path (body : gmap string Value) k :
  kind <> k -> media_set kind path body !! k = body !! k.
Proof.
  intros Hk. rewrite media_set_lookup, bool_decide_eq_false_2 by exact Hk.
  reflexivity.
Qed.

(** Skips the blocks of the payload of [createPayload_ok_shape] that store
    another key than the one looked up. *)
Ltac skip_blocks :=
  repeat first [ rewrite media_set_lookup_ne by discriminate
               | rewrite proto_block_lookup_ne by discriminate ].

Lemma message_header_other evt k :
  ~ In k ["event_type"; "from"; "message"; "pushname"; "reaction"; "view_once";
          "forwarded"; "timestamp"] ->
  message_header evt !! k = None.
Proof.
  intros Hk. rewrite message_header_lookup.
  rewrite !bool_decide_eq_false_2, !andb_false_r;
    [reflexivity | | | | | | | |]; intros <-; apply Hk; cbn; tauto.
Qed.

(** The key looked up in the header is none of its keys. *)
Ltac not_in_header :=
  apply message_header_other;
  let H := fresh in
  intros H; cbn in H;
  repeat (destruct H as [H | H]; [discriminate H |]); exact H.

(** X8: in the payload of a build that succeeds, each media key holds the
    path the extraction returned in that build for the attachment of that
    kind, and a media key with no attachment of its kind is absent. *)
Theorem createPayload_media_keys evt w payload es
    (Hrun : createPayload evt w = (Ok payload, es)) :
  (forall m,
      attached evt m ->
      exists path,
        In (EffExtract (PathMedia config) m (Ok path)) es /\
        payload !! media_kind m = Some (VString path)) /\
  (GetAudioMessage (Message evt) = None -> payload !! "audio" = None) /\
  (GetDocumentMessage (Message evt) = None -> payload !! "document" = None) /\
  (GetImageMessage (Message evt) = None -> payload !! "image" = None) /\
  (GetStickerMessage (Message evt) = None -> payload !! "sticker" = None) /\
  (GetVideoMessage (Message evt) = None -> payload !! "video" = None).
Proof.
  destruct (createPayload_ok_shape _ _ _ _ Hrun)
    as (pa & pd & pi & ps & pv & -> & -> & Ha & Hd & Hi & Hs & Hv).
  split; [| repeat split].
  - intros [a | a | a | a | a] Hatt; cbn [attached media_kind] in *.
    + destruct pa as [p |]; [| rewrite (proj2 Ha eq_refl) in Hatt; discriminate Hatt].
      exists p. rewrite Hatt. split; [left; reflexivity |].
      skip_blocks. apply lookup_insert_eq.
    + destruct pd as [p |]; [| rewrite (proj2 Hd eq_refl) in Hatt; discriminate Hatt].
      exists p. rewrite Hatt. split.
      * apply in_or_app. right. left. reflexivity.
      * skip_blocks. apply lookup_insert_eq.
    + destruct pi as [p |]; [| rewrite (proj2 Hi eq_refl) in Hatt; discriminate Hatt].
      exists p. rewrite Hatt. split.
      * apply in_or_app. right. apply in_or_app. right. left. reflexivity.
      * skip_blocks. apply lookup_insert_eq.
    + destruct ps as [p |]; [| rewrite (proj2 Hs eq_refl) in Hatt; discriminate Hatt].
      exists p. rewrite Hatt. split.
      * do 3 (apply in_or_app; right). apply in_or_app. left. left. reflexivity.
      * skip_blocks. apply lookup_insert_eq.
    + destruct pv as [p |]; [| rewrite (proj2 Hv eq_refl) in Hatt; discriminate Hatt].
      exists p. rewrite Hatt. split.
      * do 4 (apply in_or_app; right). left. reflexivity.
      * apply lookup_insert_eq.
  - intros Hnone. rewrite (proj1 Ha Hnone). cbn [media_set].
    skip_blocks. not_in_header.
  - intros Hnone. rewrite (proj1 Hd Hnone). cbn [media_set].
    skip_blocks. not_in_header.
  - intros Hnone. rewrite (proj1 Hi Hnone). cbn [media_set].
    skip_blocks. not_in_header.
  - intros Hnone. rewrite (proj1 Hs Hnone). cbn [media_set].
    skip_blocks. not_in_header.
  - intros Hnone. rewrite (proj1 Hv Hnone). cbn [media_set].
    skip_blocks. not_in_header.
Qed.

Lemma proto_block_lookup_eq key sub (body : gmap string Value) :
  proto_block key sub body !! key =
  match sub with
  | Some m => Some (VProto m)
  | None => body !! key
  end.
Proof.
  rewrite proto_block_lookup, bool_decide_eq_true_2 by reflexivity. reflexivity.
Qed.

(** X9: in the payload of a build that succeeds, each of the keys
    [contact], [list], [live_location], [location] and [order] holds the
    sub-message of the event as it is, and is absent when the event has
    none. *)
Theorem createPayload_structured_keys evt w payload es
    (Hrun : createPayload evt w = (Ok payload, es)) :
  payload !! "contact" = VProto <$> GetContactMessage (Message evt) /\
  payload !! "list" = VProto <$> GetListMessage (Message evt) /\
  payload !! "live_location" = VProto <$> GetLiveLocationMessage (Message evt) /\
  payload !! "location" = VProto <$> GetLocationMessage (Message evt) /\
  payload !! "order" = VProto <$> GetOrderMessage (Message evt).
Proof.
  destruct (createPayload_ok_shape _ _ _ _ Hrun)
    as (pa & pd & pi & ps & pv & -> & _).
  repeat split; skip_blocks; rewrite proto_block_lookup_eq;
    match goal with
    | |- context [VProto <$> ?sub] => destruct sub; [reflexivity |]
    end;
    skip_blocks; not_in_header.
Qed.

(** Evaluates the tests of equality between two given keys. *)
Ltac decide_keys :=
  repeat match goal with
         | |- context [bool_decide (?a = ?b)] =>
             let v := eval vm_compute in (bool_decide (a = b)) in
             change (bool_decide (a = b)) with v
         end;
  rewrite ?andb_false_r, ?andb_true_r; cbv iota.

(** X10: in the payload of a build that succeeds, [event_type] is
    [message], and each of [from], [message], [pushname], [reaction],
    [view_once], [forwarded] and [timestamp] is present exactly when its
    source is not empty or is true, with that source as value, whatever
    media and sub-messages the event carries. *)
Theorem createPayload_gated_keys evt w payload es
    (Hrun : createPayload evt w = (Ok payload, es)) :
  payload !! "event_type" = Some (VString "message") /\
  payload !! "from"
  = (if nonempty (SourceString (Source (Info evt)))
     then Some (VString (SourceString (Source (Info evt)))) else None) /\
  payload !! "message"
  = (if nonempty (Text (buildEventMessage evt))
     then Some (VMessage (buildEventMessage evt)) else None) /\
  payload !! "pushname"
  = (if nonempty (PushName (Info evt))
     then Some (VString (PushName (Info evt))) else None) /\
  payload !! "reaction"
  = (if nonempty (ReactionMessage (buildEventReaction evt))
     then Some (VReaction (buildEventReaction evt)) else None) /\
  payload !! "view_once" = (if IsViewOnce evt then Some (VBool true) else None) /\
  payload !! "forwarded" = (if buildForwarded evt then Some (VBool true) else None) /\
  payload !! "timestamp"
  = (if nonempty (time_Format (Timestamp (Info evt)) RFC3339)
     then Some (VString (time_Format (Timestamp (Info evt)) RFC3339)) else None).
Proof.
  destruct (createPayload_ok_shape _ _ _ _ Hrun)
    as (pa & pd & pi & ps & pv & -> & _).
  repeat split; skip_blocks; rewrite message_header_lookup; decide_keys;
    try reflexivity.
  - destruct (IsViewOnce evt); reflexivity.
  - destruct (buildForwarded evt); reflexivity.
Qed.

(** X11: a payload [createPayload] returns has no key outside the 18 keys
    the function stores. *)
Theorem createPayload_key_set evt w payload es
    (Hrun : createPayload evt w = (Ok payload, es)) :
  forall key, payload !! key <> None -> In key message_keys.
Proof.
  destruct (createPayload_ok_shape _ _ _ _ Hrun)
    as (pa & pd & pi & ps & pv & -> & _).
  intros key Hkey.
  destruct (in_dec string_dec key message_keys) as [Hin | Hout]; [exact Hin |].
  exfalso. apply Hkey.
  repeat first [ rewrite media_set_lookup_ne
                   by (intros <-; apply Hout; cbn; tauto)
               | rewrite proto_block_lookup_ne
                   by (intros <-; apply Hout; cbn; tauto) ].
  apply message_header_other. intros Hin. apply Hout.
  cbn in Hin |- *. tauto.
Qed.

(** ** The order of the extractions *)

Lemma media_block_extractions kind media evt body w :
  map fst (extractions (media_block kind media evt body w).2) = option_list media.
Proof.
  rewrite media_block_run. destruct media as [m |]; [| reflexivity].
  destruct (storage w (PathMedia config) m); reflexivity.
Qed.

Lemma bindE_in_order (m : M (result (gmap string Value)))
    (f : gmap string Value -> M (result (gmap string Value))) w l1 l2 :
  map fst (extractions (m w).2) = l1 ->
  (forall a w', in_order (f a w') l2) ->
  in_order (bindE m f w) (l1 ++ l2).
Proof.
  intros Hm Hf. rewrite bindE_run. unfold in_order in *.
  destruct (m w) as [[a | e] es1]; cbn [snd] in Hm.
  - specialize (Hf a (w ++ es1)). destruct (f a (w ++ es1)) as [r es2].
    destruct Hf as [Hpre Hall]. cbn [fst snd] in *.
    rewrite extractions_app, map_app, Hm. split.
    + apply prefix_app. exact Hpre.
    + intros payload Hr. rewrite (Hall payload Hr). reflexivity.
  - split; cbn [fst snd].
    + rewrite Hm. apply prefix_app_r. reflexivity.
    + intros payload Hr. discriminate Hr.
Qed.

Lemma createPayload_in_order evt w : in_order (createPayload evt w) (attachments evt).
Proof.
  unfold createPayload, attachments. cbv zeta.
  repeat (apply bindE_in_order; [apply media_block_extractions | intros ? ?]).
  rewrite <- (app_nil_r (option_list _)).
  apply bindE_in_order; [apply media_block_extractions | intros ? ?].
  split; [apply prefix_nil | reflexivity].
Qed.

Lemma attachments_length evt : (length (attachments evt) <= 5)%nat.
Proof.
  unfold attachments.
  destruct (GetAudioMessage (Message evt)), (GetDocumentMessage (Message evt)),
    (GetImageMessage (Message evt)), (GetStickerMessage (Message evt)),
    (GetVideoMessage (Message evt)); cbn; lia.
Qed.

Lemma attachments_kinds evt : NoDup (media_kind <$> attachments evt).
Proof.
  unfold attachments.
  destruct (GetAudioMessage (Message evt)), (GetDocumentMessage (Message evt)),
    (GetImageMessage (Message evt)), (GetStickerMessage (Message evt)),
    (GetVideoMessage (Message evt)); cbn;
    repeat (constructor; [rewrite ?list_elem_of_In; cbn; intuition discriminate |]);
    constructor.
Qed.

(** ** Receipts and presences *)

(** X13: the payload of a receipt is built without any effect and never
    fails; it always has the five keys [event_type], [from], [timestamp],
    [message_ids] and [receipt_type] and no other, also when the sender or
    the list of message identifiers is empty; and its [receipt_type] is the
    word [delivered] for a delivery and the type of the receipt otherwise,
    never the raw type of a delivery. *)
Theorem createReceiptPayload_fields evt w :
  exists payload,
    createReceiptPayload evt w = (Ok payload, []) /\
    payload !! "event_type" = Some (VString "receipt") /\
    payload !! "from" = Some (VString (SourceString (ReceiptSource evt))) /\
    payload !! "timestamp"
    = Some (VString (time_Format (ReceiptTimestamp evt) RFC3339)) /\
    payload !! "message_ids" = Some (VMessageIDs (MessageIDs evt)) /\
    (ReceiptType evt = ReceiptTypeDelivered ->
     payload !! "receipt_type" = Some (VString "delivered")) /\
    (ReceiptType evt <> ReceiptTypeDelivered ->
     payload !! "receipt_type" = Some (VReceiptType (ReceiptType evt))) /\
    payload !! "receipt_type" <> Some (VReceiptType ReceiptTypeDelivered) /\
    (forall key,
        payload !! key <> None ->
        In key ["event_type"; "from"; "timestamp"; "message_ids"; "receipt_type"]).
Proof.
  eexists. split; [reflexivity |].
  destruct (String.eqb_spec (ReceiptType evt) ReceiptTypeDelivered) as [Heq | Hne].
  - repeat split; try reflexivity.
    + intros H. destruct (H Heq).
    + discriminate.
    + intros key Hkey.
      destruct (in_dec string_dec key
                  ["event_type"; "from"; "timestamp"; "message_ids"; "receipt_type"])
        as [Hin | Hout]; [exact Hin |].
      exfalso. apply Hkey.
      rewrite !lookup_insert_ne by (intros <-; apply Hout; cbn; tauto).
      apply lookup_empty.
  - repeat split; try reflexivity.
    + intros H. destruct (Hne H).
    + rewrite lookup_insert_eq. intros H. injection H as H. exact (Hne H).
    + intros key Hkey.
      destruct (in_dec string_dec key
                  ["event_type"; "from"; "timestamp"; "message_ids"; "receipt_type"])
        as [Hin | Hout]; [exact Hin |].
      exfalso. apply Hkey.
      rewrite !lookup_insert_ne by (intros <-; apply Hout; cbn; tauto).
      apply lookup_empty.
Qed.

(** X14: the payload of a presence is built with one reading of the clock
    and no other effect and never fails; its [timestamp] is the time of the
    build, not a time of the event, its [from] is always present, and it has
    no key besides [event_type], [from], [timestamp], [status] and
    [last_seen]. *)
Theorem createPresencePayload_fields evt w :
  exists payload,
    createPresencePayload evt w = (Ok payload, [EffNow (clock w)]) /\
    payload !! "event_type" = Some (VString "presence") /\
    payload !! "from" = Some (VString (JID_String (From evt))) /\
    payload !! "timestamp" = Some (VString (time_Format (clock w) RFC3339)) /\
    (forall key,
        payload !! key <> None ->
        In key ["event_type"; "from"; "timestamp"; "status"; "last_seen"]).
Proof.
  eexists. split; [apply createPresencePayload_run |].
  cbv zeta. unfold set_if.
  destruct (Unavailable evt), (negb (IsZero (LastSeen evt)));
    (repeat split; try reflexivity);
    intros key Hkey;
    (destruct (in_dec string_dec key
                 ["event_type"; "from"; "timestamp"; "status"; "last_seen"])
      as [Hin | Hout]; [exact Hin |]);
    exfalso; apply Hkey;
    rewrite !lookup_insert_ne by (intros <-; apply Hout; cbn; tauto);
    apply lookup_empty.
Qed.

(** ** Bounds of one forwarding *)

Lemma submitWebhook_limits payload url w :
  (length (http_calls (submitWebhook payload url w).2) <= 5)%nat /\
  (0 <= total_wait (submitWebhook payload url w).2 <= 31 * Second)%Z.
Proof.
  destruct (submitWebhook_cases payload url w)
    as [(postBody & signature & _ & _ & _ & Heq) | (_ & msg & Heq)]; rewrite Heq.
  - destruct (attempts 5 _ _ _ _ _ _) as [r es] eqn:Hrun.
    destruct (attempts_bounds _ _ _ _ _ _ _ _ _ Hrun) as (Hlen & Hsleeps & _).
    cbn [snd]. split; [exact Hlen |].
    assert (Hfailed : (length (failed_calls es) <= 5)%nat).
    { unfold failed_calls.
      pose proof (List.filter_length_le
                    (fun call : Request * result Response => is_Err call.2)
                    (http_calls es)).
      lia. }
    unfold total_wait. rewrite Hsleeps, (doubling_backoff _ Hfailed).
    apply backoff_total. exact Hfailed.
  - cbn. split; [lia | split; discriminate].
Qed.

Lemma range_webhooks_limits payload urls :
  forall w,
    (length (http_calls (range_webhooks payload urls w).2) <= 5 * length urls)%nat /\
    (0 <= total_wait (range_webhooks payload urls w).2
     <= 31 * Second * Z.of_nat (length urls))%Z.
Proof.
  induction urls as [| url rest IH]; intros w.
  - cbn. split; [lia | split; discriminate].
  - cbn [range_webhooks]. unfold bind.
    pose proof (submitWebhook_limits payload url w) as [Hcalls Hwait].
    destruct (submitWebhook payload url w) as [[e |] es1]; cbn [snd] in Hcalls, Hwait.
    + unfold ret. rewrite app_nil_r. cbn [snd length].
      unfold Second in *. split; lia.
    + specialize (IH (w ++ es1)).
      destruct (range_webhooks payload rest (w ++ es1)) as [r es2].
      cbn [snd length] in *. destruct IH as [IHcalls IHwait].
      rewrite http_calls_app, length_app, total_wait_app.
      unfold Second in *. split; lia.
Qed.

Lemma delivery_no_extraction es :
  Forall delivery_effect es -> extractions es = [].
Proof.
  induction 1 as [| e es He _ IH]; [reflexivity |].
  destruct e; try destruct He; cbn [extractions]; exact IH.
Qed.

Lemma switch_event_extractions evt w :
  (length (extractions (switch_event evt w).2) <= 5)%nat.
Proof.
  destruct evt as [e | e | e | type_name]; cbn [switch_event]; try (cbn; lia).
  pose proof (createPayload_in_order e w) as [[rest Hrest] _].
  pose proof (attachments_length e) as Hlen.
  rewrite Hrest, length_app in Hlen.
  rewrite <- (length_map fst (extractions _)). lia.
Qed.

(** X7: one [forwardToWebhook] sends at most five HTTP requests for each
    configured endpoint, waits at most 31 seconds for each, and extracts at
    most five media. *)
Theorem forwardToWebhook_bounded evt w r es
    (Hrun : forwardToWebhook evt w = (r, es)) :
  (length (http_calls es) <= 5 * length (WhatsappWebhook config))%nat /\
  (0 <= total_wait es
   <= 31 * Second * Z.of_nat (length (WhatsappWebhook config)))%Z /\
  (length (extractions es) <= 5)%nat.
Proof.
  pose proof (forwardToWebhook_run evt w) as Hfwd. cbv zeta in Hfwd.
  rewrite Hfwd in Hrun. clear Hfwd.
  set (greeting := EffLog InfoLevel
         ("Forwarding event to webhook:" +:+ fmt_v_strings (WhatsappWebhook config)))
    in *.
  pose proof (switch_event_no_delivery evt (w ++ [greeting])) as [Hcalls Hsleeps].
  pose proof (switch_event_extractions evt (w ++ [greeting])) as Hext.
  assert (Hwait : forall es', sleeps es' = [] -> total_wait es' = 0%Z).
  { intros es' H. unfold total_wait. rewrite H. reflexivity. }
  destruct (switch_event evt (w ++ [greeting])) as [[payload | err] es_b];
    cbn [snd] in Hcalls, Hsleeps, Hext.
  - pose proof (range_webhooks_limits payload (WhatsappWebhook config)
                  (w ++ greeting :: es_b)) as [Hdcalls Hdwait].
    pose proof (range_webhooks_effects payload (WhatsappWebhook config)
                  (w ++ greeting :: es_b)) as Hdel.
    apply delivery_no_extraction in Hdel.
    destruct (range_webhooks payload _ _) as [[e |] es_d];
      cbn [snd] in Hdcalls, Hdwait, Hdel; injection Hrun as _ <-;
      change (greeting :: ?l) with ([greeting] ++ l);
      rewrite !http_calls_app, !total_wait_app, !extractions_app, !length_app,
        Hcalls, Hdel, (Hwait _ Hsleeps);
      cbn [http_calls extractions length total_wait sleeps fold_right app];
      unfold greeting; cbn [http_calls extractions length total_wait sleeps
                              fold_right app];
      repeat split; lia.
  - injection Hrun as _ <-.
    change (greeting :: es_b) with ([greeting] ++ es_b).
    rewrite !http_calls_app, !total_wait_app, !extractions_app, !length_app,
      Hcalls, (Hwait _ Hsleeps).
    unfold greeting, Second.
    cbn [http_calls extractions length total_wait sleeps fold_right app].
    repeat split; lia.
Qed.

(** ** The results of the extractions *)

Lemma recorded_answers_app w es1 es2 :
  recorded_answers w es1 -> recorded_answers (w ++ es1) es2 ->
  recorded_answers w (es1 ++ es2).
Proof.
  revert w. induction es1 as [| e es1 IH]; intros w H1 H2; cbn [app].
  - rewrite app_nil_r in H2. exact H2.
  - destruct H1 as [He H1]. split; [exact He |].
    apply IH; [exact H1 |]. rewrite <- app_assoc. exact H2.
Qed.

Lemma recorded_answers_split w pre root m res post :
  recorded_answers w (pre ++ EffExtract root m res :: post) ->
  root = PathMedia config /\ res = storage (w ++ pre) root m.
Proof.
  revert w. induction pre as [| e pre IH]; intros w; cbn [app].
  - intros [He _]. rewrite app_nil_r. exact He.
  - intros [_ H]. specialize (IH _ H). rewrite <- app_assoc in IH. exact IH.
Qed.

Lemma bindE_recorded {A B} (m : M (result A)) (f : A -> M (result B)) w :
  recorded_answers w (m w).2 ->
  (forall a w', recorded_answers w' (f a w').2) ->
  recorded_answers w (bindE m f w).2.
Proof.
  intros Hm Hf. rewrite bindE_run.
  destruct (m w) as [[a | e] es1]; [| exact Hm].
  specialize (Hf a (w ++ es1)). destruct (f a (w ++ es1)) as [r es2].
  apply recorded_answers_app; assumption.
Qed.

Lemma media_block_recorded kind media evt body w :
  recorded_answers w (media_block kind media evt body w).2.
Proof.
  rewrite media_block_run. destruct media as [m |]; [| exact I].
  destruct (storage w (PathMedia config) m) eqn:Hs; cbn; rewrite ?Hs; tauto.
Qed.

Lemma createPayload_recorded evt w : recorded_answers w (createPayload evt w).2.
Proof.
  unfold createPayload. cbv zeta.
  repeat (apply bindE_recorded; [apply media_block_recorded | intros ? ?]).
  exact I.
Qed.

Lemma Forall_removelast {A} (P : A -> Prop) (l : list A) :
  Forall P l -> Forall P (removelast l).
Proof.
  induction 1 as [| x l Hx Hl IH]; [constructor |].
  destruct l as [| y l]; [constructor |].
  cbn [removelast] in *. constructor; assumption.
Qed.

Lemma bindE_extraction_results (m : M (result (gmap string Value)))
    (f : gmap string Value -> M (result (gmap string Value))) w :
  extraction_results (m w) ->
  (forall a w', extraction_results (f a w')) ->
  extraction_results (bindE m f w).
Proof.
  intros Hm Hf. rewrite bindE_run.
  destruct (m w) as [[a | e] es1]; [| exact Hm].
  specialize (Hf a (w ++ es1)). destruct (f a (w ++ es1)) as [r es2].
  destruct Hm as [_ Hok1], Hf as [Hlast2 Hok2]. cbn [fst snd] in *.
  specialize (Hok1 a eq_refl). unfold extraction_results, failure_is_last in *.
  cbn [fst snd]. rewrite extractions_app. split.
  - destruct (extractions es2) as [| x xs] eqn:Hxs.
    + rewrite app_nil_r. apply Forall_removelast. exact Hok1.
    + rewrite removelast_app by discriminate. apply Forall_app.
      split; assumption.
  - intros payload Hr. apply Forall_app. split; [exact Hok1 | exact (Hok2 _ Hr)].
Qed.

Lemma media_block_extraction_results kind media evt body w :
  extraction_results (media_block kind media evt body w).
Proof.
  rewrite media_block_run. destruct media as [m |].
  - destruct (storage w (PathMedia config) m) as [path | err]; split; cbn.
    + constructor.
    + intros _ _. repeat constructor.
    + constructor.
    + intros payload H. discriminate H.
  - split; cbn; [constructor | intros; constructor].
Qed.

Lemma createPayload_extraction_results evt w :
  extraction_results (createPayload evt w).
Proof.
  unfold createPayload. cbv zeta.
  repeat (apply bindE_extraction_results;
          [apply media_block_extraction_results | intros ? ?]).
  split; cbn; [constructor | intros; constructor].
Qed.

Lemma attached_attachments evt m : attached evt m <-> In m (attachments evt).
Proof.
  unfold attachments.
  destruct (GetAudioMessage (Message evt)) as [a |] eqn:Ha,
    (GetDocumentMessage (Message evt)) as [d |] eqn:Hd,
    (GetImageMessage (Message evt)) as [i |] eqn:Hi,
    (GetStickerMessage (Message evt)) as [s |] eqn:Hs,
    (GetVideoMessage (Message evt)) as [v |] eqn:Hv;
    destruct m as [x | x | x | x | x]; cbn; rewrite ?Ha, ?Hd, ?Hi, ?Hs, ?Hv;
    split; intros H;
    repeat match goal with
           | H : _ \/ _ |- _ => destruct H as [H | H]
           | H : False |- _ => destruct H
           end;
    try discriminate H; try (injection H as ->); tauto.
Qed.

Lemma extractions_In_inv m res es :
  In (m, res) (extractions es) -> exists root, In (EffExtract root m res) es.
Proof.
  induction es as [| e es IH]; [intros [] |].
  destruct e as [lvl msg | t | root m' res' | c req r | d]; cbn [extractions];
    try (intros H; destruct (IH H) as [root0 Hin]; exists root0; right; exact Hin).
  intros [Heq | H].
  - injection Heq as -> ->. exists root. left. reflexivity.
  - destruct (IH H) as [root0 Hin]. exists root0. right. exact Hin.
Qed.

(** In a build that succeeds every attachment was extracted, and the
    storage answered with a path. *)
Lemma createPayload_ok_extracted evt w payload es m :
  createPayload evt w = (Ok payload, es) ->
  attached evt m ->
  exists pre path post,
    es = pre ++ EffExtract (PathMedia config) m (Ok path) :: post /\
    storage (w ++ pre) (PathMedia config) m = Ok path.
Proof.
  intros Hrun Hatt.
  pose proof (createPayload_in_order evt w) as [_ Hall].
  pose proof (createPayload_extraction_results evt w) as [_ Hok].
  pose proof (createPayload_recorded evt w) as Hrec.
  rewrite Hrun in Hall, Hok, Hrec. cbn [fst snd] in Hall, Hok, Hrec.
  specialize (Hall payload eq_refl). specialize (Hok payload eq_refl).
  apply attached_attachments in Hatt. rewrite <- Hall in Hatt.
  apply in_map_iff in Hatt. destruct Hatt as ([m' res] & Hm & Hin).
  cbn [fst] in Hm. subst m'.
  rewrite List.Forall_forall in Hok. pose proof (Hok _ Hin) as Hres.
  destruct res as [path | err]; [| discriminate Hres].
  apply extractions_In_inv in Hin. destruct Hin as [root Hin].
  apply in_split in Hin. destruct Hin as (pre & post & ->).
  destruct (recorded_answers_split _ _ _ _ _ _ Hrec) as [-> Hanswer].
  exists pre, path, post. split; [reflexivity | symmetry; exact Hanswer].
Qed.

(** C4: when the media extraction fails on an attachment of the event, in
    the history in which the builder asks for it, [createPayload] returns no
    payload but the error that names the kind of a medium of the event on
    which the extraction failed and carries the message of the cause; that
    failed extraction is the last thing the builder does but for logging it.
    (The medium of the error is the attachment itself or one that comes
    before it in the order of the builder: the builder stops at the first
    that fails.)  The builder returns a payload only when every attachment
    was extracted and the storage answered with a path; every extraction of
    the run is of an attachment of the event and records what the storage
    answered; a failed extraction ends the run with its error; and the
    builder fails only after a failed extraction. *)
Theorem createPayload_media_failure evt w r es
    (Hrun : createPayload evt w = (r, es)) :
  (forall m,
      attached evt m ->
      (forall pre root res post,
          es = pre ++ EffExtract root m res :: post ->
          is_Err (storage (w ++ pre) (PathMedia config) m) = true) ->
      exists m' cause pre,
        attached evt m' /\
        storage (w ++ pre) (PathMedia config) m' = Err cause /\
        es = pre ++ [EffExtract (PathMedia config) m' (Err cause);
                     download_failure_log evt m' cause] /\
        r = Err (WebhookError
                   ("Failed to download " +:+ media_kind m' +:+ ": "
                    +:+ Error cause))) /\
  (forall payload,
      r = Ok payload ->
      forall m,
        attached evt m ->
        exists pre path post,
          es = pre ++ EffExtract (PathMedia config) m (Ok path) :: post /\
          storage (w ++ pre) (PathMedia config) m = Ok path) /\
  (forall pre root m res post,
      es = pre ++ EffExtract root m res :: post ->
      attached evt m /\ root = PathMedia config /\ res = storage (w ++ pre) root m) /\
  (forall root m cause,
      In (EffExtract root m (Err cause)) es ->
      attached evt m /\
      root = PathMedia config /\
      r = Err (WebhookError
                 ("Failed to download " +:+ media_kind m +:+ ": " +:+ Error cause)) /\
      exists es0,
        es = es0 ++ [EffExtract root m (Err cause); download_failure_log evt m cause]) /\
  (forall e, r = Err e -> exists root m cause, In (EffExtract root m (Err cause)) es).
Proof.
  pose proof (createPayload_outcome evt w) as [Hfail Herr].
  pose proof (createPayload_recorded evt w) as Hrec.
  pose proof (createPayload_in_order evt w) as [Hpre _].
  rewrite Hrun in Hfail, Herr, Hrec, Hpre. cbn [fst snd] in Hfail, Herr, Hrec, Hpre.
  assert (Hsplit : forall pre root m res post,
             es = pre ++ EffExtract root m res :: post ->
             attached evt m /\ root = PathMedia config
             /\ res = storage (w ++ pre) root m).
  { intros pre root m res post Hes. split.
    - apply attached_attachments. destruct Hpre as [rest Hrest]. rewrite Hrest.
      apply in_or_app. left. apply in_map_iff. exists (m, res).
      split; [reflexivity |]. apply (In_extractions root). rewrite Hes.
      apply in_or_app. right. left. reflexivity.
    - rewrite Hes in Hrec. exact (recorded_answers_split _ _ _ _ _ _ Hrec). }
  split; [| split; [| split; [exact Hsplit | split; [exact Hfail | exact Herr]]]].
  - intros m Hatt Hbad. destruct r as [payload | e].
    + destruct (createPayload_ok_extracted _ _ _ _ m Hrun Hatt)
        as (pre & path & post & Hes & Hanswer).
      specialize (Hbad pre _ _ _ Hes). rewrite Hanswer in Hbad. discriminate Hbad.
    + destruct (Herr e eq_refl) as (root & m' & cause & Hin).
      destruct (Hfail root m' cause Hin) as (Hatt' & -> & Hr & es0 & Hes).
      exists m', cause, es0. split; [exact Hatt' |].
      destruct (Hsplit es0 _ m' (Err cause) [download_failure_log evt m' cause] Hes)
        as (_ & _ & Hanswer).
      split; [symmetry; exact Hanswer |]. split; [exact Hes | exact Hr].
  - intros payload -> m Hatt.
    exact (createPayload_ok_extracted _ _ _ _ m Hrun Hatt).
Qed.

(** X12: whether it succeeds or fails, [createPayload] extracts an initial
    part of the attachments of the event, in the order audio, document,
    image, sticker, video, so each at most once, no kind twice and five
    media at most; every extraction but the last succeeded, so none follows
    a failed one; and when it returns a payload it extracted all of the
    attachments and none failed. *)
Theorem createPayload_extraction_order evt w r es
    (Hrun : createPayload evt w = (r, es)) :
  map fst (extractions es) `prefix_of` attachments evt /\
  (forall payload, r = Ok payload -> map fst (extractions es) = attachments evt) /\
  (length (extractions es) <= 5)%nat /\
  NoDup (media_kind <$> map fst (extractions es)) /\
  Forall (fun x : DownloadableMessage * result string => is_Err x.2 = false)
         (removelast (extractions es)) /\
  (forall pre x post,
      extractions es = pre ++ x :: post -> is_Err x.2 = true -> post = []) /\
  (forall payload,
      r = Ok payload ->
      Forall (fun x : DownloadableMessage * result string => is_Err x.2 = false)
             (extractions es)).
Proof.
  pose proof (createPayload_in_order evt w) as [Hpre Hall].
  pose proof (createPayload_extraction_results evt w) as [Hlast Hok].
  rewrite Hrun in Hpre, Hall, Hlast, Hok. cbn [fst snd] in Hpre, Hall, Hlast, Hok.
  split; [exact Hpre |]. split; [exact Hall |].
  split; [| split; [| split; [exact Hlast | split; [| exact Hok]]]].
  - destruct Hpre as [rest Hrest].
    pose proof (attachments_length evt) as Hlen.
    rewrite Hrest, length_app in Hlen.
    rewrite <- (length_map fst (extractions es)). lia.
  - destruct Hpre as [rest Hrest].
    pose proof (attachments_kinds evt) as Hnodup.
    rewrite Hrest, fmap_app in Hnodup.
    apply NoDup_app in Hnodup. tauto.
  - intros pre x post Hxs Hx. unfold failure_is_last in Hlast.
    rewrite Hxs in Hlast.
    destruct post as [| y post]; [reflexivity |]. exfalso.
    change (x :: y :: post) with ([x] ++ y :: post) in Hlast.
    rewrite app_assoc, removelast_app in Hlast by discriminate.
    apply Forall_app in Hlast. destruct Hlast as [Hlast _].
    apply Forall_app in Hlast. destruct Hlast as [_ Hlast].
    inversion Hlast as [| ? ? Hx' _]; subst. rewrite Hx in Hx'. discriminate Hx'.
Qed.

(** ** Building twice *)

Lemma media_effect_length (f : Proto -> DownloadableMessage) media path :
  (media = None <-> path = None) ->
  length (extractions (media_effect (f <$> media) path))
  = length (option_list (f <$> media)).
Proof.
  intros [H1 H2]. destruct media as [m |], path as [p |]; cbn; try reflexivity.
  discriminate (H2 eq_refl).
Qed.

Lemma media_effect_inj (f : Proto -> DownloadableMessage) media path1 path2 :
  (media = None <-> path1 = None) ->
  (media = None <-> path2 = None) ->
  extractions (media_effect (f <$> media) path1)
  = extractions (media_effect (f <$> media) path2) ->
  path1 = path2.
Proof.
  intros [H1 H1'] [H2 H2'] Heq.
  destruct media as [m |], path1 as [p1 |], path2 as [p2 |]; cbn in Heq;
    try reflexivity;
    try discriminate (H1 eq_refl); try discriminate (H2 eq_refl);
    try discriminate (H1' eq_refl); try discriminate (H2' eq_refl).
  injection Heq as ->. reflexivity.
Qed.

Lemma createPayload_twice evt w1 w2 :
  extractions (createPayload evt w1).2 = extractions (createPayload evt w2).2 ->
  (createPayload evt w1).1 = (createPayload evt w2).1.
Proof.
  pose proof (createPayload_outcome evt w1) as [Hfail1 Herr1].
  pose proof (createPayload_outcome evt w2) as [Hfail2 Herr2].
  pose proof (createPayload_extraction_results evt w1) as [_ Hok1].
  pose proof (createPayload_extraction_results evt w2) as [_ Hok2].
  destruct (createPayload evt w1) as [[p1 | e1] es1] eqn:H1,
    (createPayload evt w2) as [[p2 | e2] es2] eqn:H2;
    cbn [fst snd] in *; intros Hext.
  - destruct (createPayload_ok_shape _ _ _ _ H1)
      as (pa & pd & pi & ps & pv & -> & -> & Ha & Hd & Hi & Hs & Hv).
    destruct (createPayload_ok_shape _ _ _ _ H2)
      as (qa & qd & qi & qs & qv & -> & -> & Ha' & Hd' & Hi' & Hs' & Hv').
    assert (Hsame : pa = qa /\ pd = qd /\ pi = qi /\ ps = qs /\ pv = qv).
    { rewrite !extractions_app in Hext.
      repeat match type of Hext with
             | _ ++ _ = _ ++ _ =>
                 apply app_inj_1 in Hext;
                 [destruct Hext as [?Hslot Hext]
                 | rewrite !media_effect_length by assumption; reflexivity]
             end.
      repeat split; eapply media_effect_inj; eassumption. }
    destruct Hsame as (-> & -> & -> & -> & ->). reflexivity.
  - exfalso. destruct (Herr2 e2 eq_refl) as (root & m & cause & Hin).
    apply In_extractions in Hin. rewrite <- Hext in Hin.
    specialize (Hok1 p1 eq_refl). rewrite List.Forall_forall in Hok1.
    specialize (Hok1 _ Hin). discriminate Hok1.
  - exfalso. destruct (Herr1 e1 eq_refl) as (root & m & cause & Hin).
    apply In_extractions in Hin. rewrite Hext in Hin.
    specialize (Hok2 p2 eq_refl). rewrite List.Forall_forall in Hok2.
    specialize (Hok2 _ Hin). discriminate Hok2.
  - destruct (Herr1 e1 eq_refl) as (root & m & cause & Hin).
    destruct (Hfail1 root m cause Hin) as (_ & _ & -> & _).
    apply In_extractions in Hin. rewrite Hext in Hin.
    apply extractions_In_inv in Hin. destruct Hin as [root' Hin].
    destruct (Hfail2 root' m cause Hin) as (_ & _ & -> & _). reflexivity.
Qed.

(** C6 (amended): building the payload of an event twice yields the same
    payload, key for key and value for value, and so the same serialized
    JSON, for every receipt event, for every message event when the media
    extraction returned at the second build what it returned at the first,
    and for every presence event when the clock reads, to the second, the
    same time at both builds. *)
Theorem switch_event_twice evt w1 w2 (Hsame : same_answers evt w1 w2) :
  fst (switch_event evt w1) = fst (switch_event evt w2) /\
  serialized (fst (switch_event evt w1)) = serialized (fst (switch_event evt w2)).
Proof.
  assert (Heq : fst (switch_event evt w1) = fst (switch_event evt w2)).
  { destruct evt as [e | e | e | type_name]; cbn [switch_event same_answers] in *.
    - apply createPayload_twice. exact Hsame.
    - reflexivity.
    - apply createPresencePayload_same. exact Hsame.
    - reflexivity. }
  split; [exact Heq | rewrite Heq; reflexivity].
Qed.

End Properties.

(** * Concrete runs *)

(** The formatter of the concrete environment on three known instants. *)
Example format_rfc3339_epoch :
  Demo.format_rfc3339 {| ns := 62135596800000000000; zone := 0 |}
  = "1970-01-01T00:00:00Z".
Proof. vm_compute. reflexivity. Qed.

Example format_rfc3339_zero_time :
  Demo.format_rfc3339 {| ns := 0; zone := 0 |} = "0001-01-01T00:00:00Z".
Proof. vm_compute. reflexivity. Qed.

Example format_rfc3339_zone :
  Demo.format_rfc3339 {| ns := 63835596800000000000; zone := 25200 |}
  = "2023-11-15T05:13:20+07:00".
Proof. vm_compute. reflexivity. Qed.

(** The receipt type of a delivery is replaced by the word [delivered];
    another type is passed through. *)
Example createReceiptPayload_types :
  field "receipt_type" (fst (createReceiptPayload (E := Demo.online) Demo.seen []))
  = Some (VReceiptType "read") /\
  field "receipt_type"
    (fst (createReceiptPayload (E := Demo.online)
            {| ReceiptSource := Demo.from_alice; MessageIDs := [];
               ReceiptTimestamp := Demo.start; ReceiptType := "" |} []))
  = Some (VString "delivered").
Proof. split; vm_compute; reflexivity. Qed.

(** The scenario of section 8: a text message forwarded to two endpoints,
    the first of which answers and the second of which never does.  The
    first endpoint receives one request, the second five, and the error is
    that of the second. *)
Example forwardToWebhook_two_endpoints :
  let out := forwardToWebhook (E := Demo.online) (EvMessage Demo.hello) [] in
  out.1 = Some (WebhookError
                  "error when submit webhook after 5 attempts: dial tcp: connection refused") /\
  map (fun call : Request * result Response => (URL call.1, is_Err call.2))
      (http_calls out.2)
  = [(Demo.hook "ok", false); (Demo.hook "down", true); (Demo.hook "down", true);
     (Demo.hook "down", true); (Demo.hook "down", true); (Demo.hook "down", true)] /\
  sleeps out.2 = [1 * Second; 2 * Second; 4 * Second; 8 * Second; 16 * Second]%Z.
Proof. vm_compute. repeat split. Qed.


(** A host that answers from the third request on: success after three
    attempts and two waits. *)
Lemma submitWebhook_success_stops_witness :
  let out := submitWebhook (E := Demo.online) Demo.tagged (Demo.hook "flaky") [] in
  out.1 = None /\
  length (http_calls out.2) = 3%nat /\
  sleeps out.2 = [1 * Second; 2 * Second]%Z.
Proof.
  cbv zeta.
  destruct (submitWebhook_success_stops (E := Demo.online) Demo.tagged
              (Demo.hook "flaky") [] _ _ (surjective_pairing _)) as [_ Hthird].
  edestruct Hthird as (Hr & _ & Hcalls & Hsleeps);
    [reflexivity | reflexivity | reflexivity
     | reflexivity | reflexivity | reflexivity |].
  split; [exact Hr |]. split; [exact Hcalls | exact Hsleeps].
Defined.

(** A voice note whose download fails: the build fails with the error of
    the audio, and the image of the same message is never extracted. *)
Lemma createPayload_media_failure_witness :
  let out := createPayload (E := Demo.online) Demo.voice [] in
  out.1 = Err (WebhookError "Failed to download audio: download failed with status 404") /\
  extractions out.2
  = [(AudioMessage "broken", Err (errorString "download failed with status 404"))] /\
  exists m' cause pre,
    attached Demo.voice m' /\
    Demo.store ([] ++ pre) "statics/media" m' = Err cause /\
    out.2 = pre ++ [EffExtract "statics/media" m' (Err cause);
                    download_failure_log (E := Demo.online) Demo.voice m' cause].
Proof.
  cbv zeta.
  destruct (createPayload_media_failure (E := Demo.online) Demo.voice [] _ _
              (surjective_pairing _)) as (Hfail & _ & _ & Hlast & _).
  destruct (Hlast "statics/media" (AudioMessage "broken")
              (errorString "download failed with status 404"))
    as (_ & _ & Hr & _); [left; reflexivity |].
  split; [exact Hr |]. split; [reflexivity |].
  destruct (Hfail (AudioMessage "broken")) as (m' & cause & pre & Hatt & Hanswer & Hes & _);
    [reflexivity | intros pre root res post _; reflexivity |].
  exists m', cause, pre. split; [exact Hatt |]. split; [exact Hanswer | exact Hes].
Defined.

(** C5, as stated, fails: a shared location has no media, no reaction, no
    forward mark and no text, and its payload has the key [location]; a
    message marked view-once with no content has the key [view_once]. *)
Lemma createPayload_bare_counterexample :
  (no_media Demo.location /\
   ReactionMessage (buildEventReaction (Env := Demo.online) Demo.location) = "" /\
   buildForwarded (Env := Demo.online) Demo.location = false /\
   Text (buildEventMessage (Env := Demo.online) Demo.location) = "" /\
   exists payload,
     createPayload (E := Demo.online) Demo.location [] = (Ok payload, []) /\
     payload !! "location" = Some (VProto "geo:-6.2,106.8")) /\
  (no_media Demo.once /\
   ReactionMessage (buildEventReaction (Env := Demo.online) Demo.once) = "" /\
   buildForwarded (Env := Demo.online) Demo.once = false /\
   Text (buildEventMessage (Env := Demo.online) Demo.once) = "" /\
   exists payload,
     createPayload (E := Demo.online) Demo.once [] = (Ok payload, []) /\
     payload !! "view_once" = Some (VBool true)).
Proof.
  split.
  - split; [repeat split |]. repeat split. eexists. split; reflexivity.
  - split; [repeat split |]. repeat split. eexists. split; reflexivity.
Qed.

(** A message with no content: the four keys and no other. *)
Lemma createPayload_bare_witness :
  exists payload,
    createPayload (E := Demo.online) Demo.bare [] = (Ok payload, []) /\
    payload !! "event_type" = Some (VString "message") /\
    payload !! "from" = Some (VString "628123@s.whatsapp.net") /\
    payload !! "pushname" = Some (VString "Alice") /\
    payload !! "timestamp" = Some (VString "2024-01-01T00:00:00Z") /\
    payload !! "message" = None.
Proof.
  destruct (createPayload_bare (E := Demo.online) Demo.bare [])
    as (payload & Hrun & Htype & Hfrom & Hname & Htime & Hothers & _);
    try reflexivity; try (repeat split; reflexivity).
  exists payload. repeat split; try assumption.
  apply Hothers. cbn. intros [H | [H | [H | [H | []]]]]; discriminate H.
Defined.

(** C6, as stated, fails: two successive builds of the payload of one
    presence event, a second apart, differ in [timestamp], and so does
    their serialized JSON. *)
Lemma switch_event_twice_counterexample :
  let first := switch_event (E := Demo.online) (EvPresence Demo.away) [] in
  let second := switch_event (E := Demo.online) (EvPresence Demo.away) ([] ++ first.2) in
  field "timestamp" first.1 = Some (VString "2024-01-01T00:00:00Z") /\
  field "timestamp" second.1 = Some (VString "2024-01-01T00:00:01Z") /\
  first.1 <> second.1 /\
  serialized (E := Demo.online) first.1 <> serialized (E := Demo.online) second.1.
Proof.
  cbv zeta. split; [vm_compute; reflexivity |]. split; [vm_compute; reflexivity |].
  split.
  - intros Heq. apply (f_equal (field "timestamp")) in Heq.
    vm_compute in Heq. discriminate Heq.
  - vm_compute. intros Heq. discriminate Heq.
Qed.

(** A photo built after two different histories in which the storage
    gave the same path: the same payload. *)
Lemma switch_event_twice_witness :
  extractions (switch_event (E := Demo.online) (EvMessage Demo.photo) [EffSleep Second]).2
  = [(ImageMessage "jpeg", Ok "statics/media/1-image")] /\
  fst (switch_event (E := Demo.online) (EvMessage Demo.photo) [EffSleep Second])
  = fst (switch_event (E := Demo.online) (EvMessage Demo.photo) [EffNow Demo.start]) /\
  serialized (E := Demo.online)
    (fst (switch_event (E := Demo.online) (EvMessage Demo.photo) [EffSleep Second]))
  = serialized (E := Demo.online)
      (fst (switch_event (E := Demo.online) (EvMessage Demo.photo) [EffNow Demo.start])).
Proof.
  split; [vm_compute; reflexivity |].
  apply (switch_event_twice (E := Demo.online) (EvMessage Demo.photo)
           [EffSleep Second] [EffNow Demo.start]).
  vm_compute. reflexivity.
Defined.

(** The first effect of a delivery is the call with the signed request. *)
Lemma submitWebhook_request_witness :
  exists (postBody signature : string) (r : result Response) (es : list Effect),
    snd (submitWebhook (E := Demo.online) Demo.tagged (Demo.hook "ok") [])
    = EffDo webhook_client (webhook_request (Demo.hook "ok") postBody signature) r :: es.
Proof.
  eexists. eexists.
  destruct (submitWebhook_request (E := Demo.online) Demo.tagged (Demo.hook "ok") [] _
              eq_refl) as [_ Hsent].
  apply Hsent; reflexivity.
Defined.

(** C10, as stated, fails: with no endpoint configured, forwarding a voice
    note whose download fails does not return success but the error of the
    build. *)
Lemma forwardToWebhook_no_endpoints_counterexample :
  WhatsappWebhook (config (Env := Demo.silent)) = [] /\
  fst (forwardToWebhook (E := Demo.silent) (EvMessage Demo.voice) [])
  = Some (WebhookError "Failed to download audio: download failed with status 404") /\
  fst (forwardToWebhook (E := Demo.silent) (EvMessage Demo.voice) []) <> None.
Proof.
  split; [reflexivity |]. split; [reflexivity |]. vm_compute. discriminate.
Qed.

(** A text message with no endpoint configured: success, nothing sent. *)
Lemma forwardToWebhook_no_endpoints_witness :
  fst (forwardToWebhook (E := Demo.silent) (EvMessage Demo.hello) []) = None /\
  no_delivery (snd (forwardToWebhook (E := Demo.silent) (EvMessage Demo.hello) [])).
Proof.
  destruct (forwardToWebhook_no_endpoints (E := Demo.silent) (EvMessage Demo.hello) []
              eq_refl) as (b & es_b & Hb & _ & Hquiet & Hiff).
  split; [| exact Hquiet].
  apply Hiff. intros root m cause Hin.
  apply (f_equal snd) in Hb. vm_compute in Hb. rewrite <- Hb in Hin. destruct Hin.
Defined.

(** An event of another type is refused by name, and the payload of a text
    message is tagged as a message. *)
Lemma forwardToWebhook_unsupported_witness :
  fst (forwardToWebhook (E := Demo.online) (EvOther "*events.Connected") [])
  = Some (errorString "unsupported event type: *events.Connected") /\
  exists payload es,
    switch_event (E := Demo.online) (EvMessage Demo.hello) [] = (Ok payload, es) /\
    payload !! "event_type" = Some (VString "message").
Proof.
  destruct (forwardToWebhook_unsupported (E := Demo.online))
    as (Hother & _ & _ & _ & Htag).
  split.
  - rewrite Hother. reflexivity.
  - eexists. eexists. split; [reflexivity |].
    eapply (Htag (EvMessage Demo.hello) []). reflexivity.
Defined.

(** * Concrete runs of the further properties *)

(** A delivery to a host that answers from the third request on. *)
Lemma submitWebhook_bounded_witness :
  let out := submitWebhook (E := Demo.online) Demo.tagged (Demo.hook "flaky") [] in
  (length (http_calls out.2) <= 5)%nat /\
  length (http_calls out.2)
  = (length (failed_calls out.2) + length (answered_calls out.2))%nat /\
  sleeps out.2 = take (length (failed_calls out.2)) backoff /\
  (0 <= total_wait out.2 <= 31 * Second)%Z /\
  match out.1 with
  | None =>
      length (answered_calls out.2) = 1%nat /\ (length (failed_calls out.2) <= 4)%nat
  | Some _ =>
      answered_calls out.2 = [] /\
      (http_calls out.2 = [] \/ length (failed_calls out.2) = 5%nat)
  end.
Proof.
  exact (submitWebhook_bounded (E := Demo.online) Demo.tagged (Demo.hook "flaky") []
           _ _ (surjective_pairing _)).
Defined.

(** A text message forwarded to an endpoint that answers and one that never
    does: the error is that of the exhausted delivery. *)
Lemma forwardToWebhook_error_kind_witness :
  exists cause,
    (forwardToWebhook (E := Demo.online) (EvMessage Demo.hello) []).1
    = Some (WebhookError
              ("error when submit webhook after 5 attempts: " +:+ Error cause)).
Proof.
  destruct (forwardToWebhook_error_kind (E := Demo.online) (EvMessage Demo.hello) []
              (WebhookError
                 "error when submit webhook after 5 attempts: dial tcp: connection refused")
              (forwardToWebhook (E := Demo.online) (EvMessage Demo.hello) []).2)
    as [(? & H & _) | [(? & ? & ? & _ & _ & H) | [(? & H) | [(? & H) | [(? & H) | H]]]]];
    try discriminate H.
  - rewrite (surjective_pairing (forwardToWebhook _ _)) at 1. f_equal.
  - destruct H as [cause H]. exists cause. rewrite <- H. reflexivity.
Defined.

(** A voice note whose download fails, forwarded to two endpoints: nothing
    is sent. *)
Lemma forwardToWebhook_failed_download_witness :
  let out := forwardToWebhook (E := Demo.online) (EvMessage Demo.voice) [] in
  out.1 = Some (WebhookError "Failed to download audio: download failed with status 404") /\
  http_calls out.2 = [] /\
  sleeps out.2 = [].
Proof.
  apply (forwardToWebhook_failed_download (E := Demo.online) (EvMessage Demo.voice) []
           _ _ "statics/media" (AudioMessage "broken")
           (errorString "download failed with status 404")
           (surjective_pairing _)).
  right. left. reflexivity.
Defined.

(** Of the two endpoints, the one that answers is the first of the list. *)
Lemma forwardToWebhook_answered_witness :
  let out := forwardToWebhook (E := Demo.online) (EvMessage Demo.hello) [] in
  map (fun call : Request * result Response => URL call.1) (answered_calls out.2)
  `prefix_of` WhatsappWebhook (config (Env := Demo.online)) /\
  (out.1 = None ->
   map (fun call : Request * result Response => URL call.1) (answered_calls out.2)
   = WhatsappWebhook (config (Env := Demo.online))).
Proof.
  exact (forwardToWebhook_answered (E := Demo.online) (EvMessage Demo.hello) []
           _ _ (surjective_pairing _)).
Defined.

(** The six requests of that run are POST requests with one signature. *)
Lemma forwardToWebhook_same_request_witness :
  let out := forwardToWebhook (E := Demo.online) (EvMessage Demo.hello) [] in
  exists signature,
    length (http_calls out.2) = 6%nat /\
    forall c req res,
      In (EffDo c req res) out.2 ->
      c = webhook_client /\
      In (URL req) [Demo.hook "ok"; Demo.hook "down"] /\
      Method req = "POST" /\
      Header req
      = <["X-Hub-Signature-256" := ["sha256=" +:+ signature]]>
          (<["Content-Type" := ["application/json"]]> ∅).
Proof.
  cbv zeta.
  destruct (forwardToWebhook_same_request (E := Demo.online) (EvMessage Demo.hello) []
              _ _ (surjective_pairing _)) as (postBody & signature & Hsame).
  exists signature. split; [vm_compute; reflexivity |].
  intros c req res Hin.
  destruct (Hsame c req res Hin) as (Hc & Hurl & Hmethod & Hheader & _).
  repeat split; assumption.
Defined.

(** That run stays within ten requests, 62 seconds and five extractions. *)
Lemma forwardToWebhook_bounded_witness :
  let out := forwardToWebhook (E := Demo.online) (EvMessage Demo.hello) [] in
  (length (http_calls out.2) <= 5 * 2)%nat /\
  (0 <= total_wait out.2 <= 31 * Second * 2)%Z /\
  (length (extractions out.2) <= 5)%nat.
Proof.
  exact (forwardToWebhook_bounded (E := Demo.online) (EvMessage Demo.hello) []
           _ _ (surjective_pairing _)).
Defined.

(** The line of the success is logged when the only endpoint answers. *)
Lemma forwardToWebhook_forwarded_log_witness :
  let out := forwardToWebhook (E := Demo.env (Demo.endpoints [Demo.hook "ok"]) Demo.net)
               (EvReceipt Demo.seen) [] in
  out.1 = None /\ In forwarded_log out.2.
Proof.
  cbv zeta.
  destruct (forwardToWebhook_forwarded_log
              (E := Demo.env (Demo.endpoints [Demo.hook "ok"]) Demo.net)
              (EvReceipt Demo.seen) [] _ _ (surjective_pairing _)) as [Hiff _].
  assert (Hr : (forwardToWebhook
                  (E := Demo.env (Demo.endpoints [Demo.hook "ok"]) Demo.net)
                  (EvReceipt Demo.seen) []).1 = None) by (vm_compute; reflexivity).
  split; [exact Hr | apply Hiff; exact Hr].
Defined.

(** A photo with a contact card: the image key holds the path of the
    extraction. *)
Lemma createPayload_media_keys_witness :
  exists payload es path,
    createPayload (E := Demo.online) Demo.photo [] = (Ok payload, es) /\
    In (EffExtract "statics/media" (ImageMessage "jpeg") (Ok path)) es /\
    payload !! "image" = Some (VString path) /\
    payload !! "audio" = None.
Proof.
  eexists. eexists.
  destruct (createPayload_media_keys (E := Demo.online) Demo.photo [] _ _ eq_refl)
    as (Hatt & Haudio & _).
  destruct (Hatt (ImageMessage "jpeg") eq_refl) as (path & Hin & Hpath).
  exists path. split; [reflexivity |]. split; [exact Hin |].
  split; [exact Hpath | exact (Haudio eq_refl)].
Defined.

Lemma createPayload_structured_keys_witness :
  exists payload es,
    createPayload (E := Demo.online) Demo.photo [] = (Ok payload, es) /\
    payload !! "contact" = Some (VProto "BEGIN:VCARD") /\
    payload !! "location" = None.
Proof.
  eexists. eexists. split; [reflexivity |].
  destruct (createPayload_structured_keys (E := Demo.online) Demo.photo [] _ _ eq_refl)
    as (Hcontact & _ & _ & Hlocation & _).
  split; [exact Hcontact | exact Hlocation].
Defined.

Lemma createPayload_gated_keys_witness :
  exists payload es,
    createPayload (E := Demo.online) Demo.photo [] = (Ok payload, es) /\
    payload !! "pushname" = Some (VString "Alice") /\
    payload !! "message" = None /\
    payload !! "view_once" = None.
Proof.
  eexists. eexists. split; [reflexivity |].
  destruct (createPayload_gated_keys (E := Demo.online) Demo.photo [] _ _ eq_refl)
    as (_ & _ & Hmessage & Hname & _ & Hview & _).
  split; [exact Hname |]. split; [exact Hmessage | exact Hview].
Defined.

Lemma createPayload_key_set_witness :
  exists payload es,
    createPayload (E := Demo.online) Demo.photo [] = (Ok payload, es) /\
    forall key, payload !! key <> None -> In key message_keys.
Proof.
  eexists. eexists. split; [reflexivity |].
  exact (createPayload_key_set (E := Demo.online) Demo.photo [] _ _ eq_refl).
Defined.

(** The voice note: the audio is extracted, the image is not. *)
Lemma createPayload_extraction_order_witness :
  let out := createPayload (E := Demo.online) Demo.voice [] in
  attachments Demo.voice = [AudioMessage "broken"; ImageMessage "jpeg"] /\
  map fst (extractions out.2) = [AudioMessage "broken"] /\
  map fst (extractions out.2) `prefix_of` attachments Demo.voice /\
  Forall (fun x : DownloadableMessage * result string => is_Err x.2 = false)
         (removelast (extractions out.2)).
Proof.
  cbv zeta. split; [reflexivity |]. split; [reflexivity |].
  destruct (createPayload_extraction_order (E := Demo.online) Demo.voice []
              _ _ (surjective_pairing _)) as (Hprefix & _ & _ & _ & Hlast & _).
  split; [exact Hprefix | exact Hlast].
Defined.
